(** * repoconfig.Reader: reading [atlantis.yaml] and resolving stages

    A shallow embedding of [server/events/repoconfig/reader.go] and the
    properties of its configuration validation and stage resolution.

    Conventions of the embedding:
    - a Go result [(v, err)] is a pair whose second component is an
      [option error] ([None] is Go's [nil] error);
    - a Go slice is a list, the [nil] slice being the empty list;
    - a Go map is a [gmap];
    - [log.Info] is recorded in the list of lines a call returns first;
    - the file system a call reads is an explicit argument;
    - the library functions the package calls but does not define
      ([filepath.Join], [yaml.UnmarshalStrict], the [%q] verb) are the
      fields of the class [Externals]. *)

From Stdlib Require Import ZArith String Ascii List.
From stdpp Require Import base gmap strings list pretty.

Open Scope string_scope.

(** ** Errors *)

(** The error values the package meets.  [errorString] is what
    [errors.New] and [fmt.Errorf] build, [withMessage] what
    [errors.Wrapf] builds, [PathError] what [ioutil.ReadFile] fails with;
    its flag is the answer of [os.IsNotExist]. *)
Inductive error : Type :=
| errorString (s : string)
| withMessage (cause : error) (msg : string)
| PathError (notExist : bool) (s : string).

Fixpoint Error (e : error) : string :=
  match e with
  | errorString s => s
  | withMessage cause msg => msg +:+ ": " +:+ Error cause
  | PathError _ s => s
  end.

Definition os_IsNotExist (e : error) : bool :=
  match e with
  | PathError notExist _ => notExist
  | _ => false
  end.

Definition errors_New (s : string) : error := errorString s.
Definition fmt_Errorf (s : string) : error := errorString s.
Definition errors_Wrapf (err : error) (msg : string) : error := withMessage err msg.

(** [strings.Replace s old new (-1)] for a non-empty [old]: every
    non-overlapping occurrence of [old], leftmost first, becomes [new].
    [skip] counts the bytes of a matched occurrence still to drop. *)
Fixpoint replaceFrom (old new : string) (skip : nat) (s : string) : string :=
  match s with
  | EmptyString => EmptyString
  | String c s' =>
      match skip with
      | S k => replaceFrom old new k s'
      | O =>
          if String.prefix old s
          then new +:+ replaceFrom old new (String.length old - 1) s'
          else String c (replaceFrom old new 0 s')
      end
  end.

Definition strings_Replace (s old new : string) : string :=
  replaceFrom old new 0 s.

(** The double quote, for the messages that contain one. *)
Definition dquote : string := String (ascii_of_nat 34) EmptyString.

(** ** The configuration schema *)

(** Modelled from the spec: the declaration of StepConfig is not in
    reader.go; section 3 gives its fields [step_type] and [extra_args]. *)
Module StepConfig.
Record t : Type := mk { StepType : string; ExtraArgs : list string }.
End StepConfig.

(** Modelled from the spec: the declaration of StageConfig is not in
    reader.go; section 3 gives its one field [steps]. *)
Module StageConfig.
Record t : Type := mk { Steps : list StepConfig.t }.
End StageConfig.

(** Modelled from the spec: the declaration of WorkflowConfig is not in
    reader.go; section 3 gives its fields [plan] and [apply]. *)
Module WorkflowConfig.
Record t : Type := mk { Apply : StageConfig.t; Plan : StageConfig.t }.
End WorkflowConfig.

(** Modelled from the spec: the declaration of ProjectConfig is not in
    reader.go; section 3 gives its fields [dir], [workspace] and
    [workflow]. *)
Module ProjectConfig.
Record t : Type := mk { Dir : string; Workspace : string; Workflow : string }.
End ProjectConfig.

(** Modelled from the spec: the declaration of RepoConfig is not in
    reader.go; section 3 gives its fields [version], [projects] and
    [workflows]. *)
Module RepoConfig.
Record t : Type := mk
  { Version : Z;
    Projects : list ProjectConfig.t;
    Workflows : gmap string WorkflowConfig.t }.

(** The zero value [var repoConfig RepoConfig] starts from. *)
Definition zero : t := mk 0 [] ∅.
End RepoConfig.

(** ** Steps *)

(** Modelled from the spec: the declaration of StepMeta is not in
    reader.go; its fields are the ones [buildMeta] fills.  The logger,
    the tool version and the executor are held by reference only, so
    their types are parameters. *)
Module StepMeta.
Record t {SimpleLogger Version TerraformExec : Type} : Type := mk
  { Log : SimpleLogger;
    Workspace : string;
    AbsolutePath : string;
    DirRelativeToRepoRoot : string;
    TerraformVersion : Version;
    TerraformExecutor : TerraformExec;
    ExtraCommentArgs : list string;
    Username : string }.
Arguments t : clear implicits.
Arguments mk {SimpleLogger Version TerraformExec}.
End StepMeta.

Module Reader.
Record t {Version TerraformExec : Type} : Type := mk
  { TerraformExecutor : TerraformExec;
    DefaultTFVersion : Version }.
Arguments t : clear implicits.
Arguments mk {Version TerraformExec}.
End Reader.

(** What the package reads through: the file system as the answer of
    [ioutil.ReadFile] at every path. *)
Definition FileSystem : Type := string -> list Byte.byte * option error.

(** The library functions the package calls.  [yaml_UnmarshalStrict]
    takes the value it fills and returns it with the decoder's error. *)
Class Externals : Type := {
  filepath_Join : string -> string -> string;
  yaml_UnmarshalStrict :
    list Byte.byte -> RepoConfig.t -> RepoConfig.t * option error;
  strconv_Quote : string -> string
}.

(** A call's result together with the lines it sent to [log.Info]. *)
Definition logged (A : Type) : Type := (list string * A)%type.

Definition AtlantisYAMLFilename : string := "atlantis.yaml".
Definition PlanStageName : string := "plan".
Definition ApplyStageName : string := "apply".

Definition unknownVersionMsg : string :=
  Eval cbv in
    "unknown version: must have " +:+ dquote +:+ "version: 2" +:+ dquote +:+ " set".

Definition noProjectsMsg : string :=
  "'projects' key must exist and contain at least one element".

Definition invalidDirMsg (i : nat) : string :=
  "project at index " +:+ pretty i +:+ " invalid: dir key must be set and non-empty".

Definition noConfigLine : string :=
  "no " +:+ AtlantisYAMLFilename +:+ " file found––continuing with defaults".

Definition noWorkflowLine : string :=
  "no " +:+ AtlantisYAMLFilename +:+ " workflow set––continuing with defaults".

Section ReaderCode.
Context {SimpleLogger Version TerraformExec : Type}.
Context `{Externals}.

Local Abbreviation Meta := (StepMeta.t SimpleLogger Version TerraformExec).
Local Abbreviation ReaderT := (Reader.t Version TerraformExec).

(** Modelled from the spec: the Step interface and its three
    implementations are declared outside reader.go.  A [Step] value is
    [nil] or a pointer to an InitStep, a PlanStep or an ApplyStep, each
    with the fields [Meta] and [ExtraArgs] the composite literals of
    [BuildStage] set. *)
Inductive Step : Type :=
| nilStep
| InitStep (meta : Meta) (extraArgs : list string)
| PlanStep (meta : Meta) (extraArgs : list string)
| ApplyStep (meta : Meta) (extraArgs : list string).

(** Modelled from the spec: PlanStage and ApplyStage are declared
    outside reader.go; each holds the field [Steps]. *)
Inductive PlanStage : Type := mkPlanStage (steps : list Step).
Inductive ApplyStage : Type := mkApplyStage (steps : list Step).

(** The loop of [ParseAndValidate] over [repoConfig.Projects], from
    index [i] on. *)
Fixpoint validateProjects (repoConfig : RepoConfig.t) (i : nat)
    (projects : list ProjectConfig.t) : RepoConfig.t * option error :=
  match projects with
  | [] => (repoConfig, None)
  | project :: rest =>
      if ProjectConfig.Dir project =? ""
      then (repoConfig, Some (fmt_Errorf (invalidDirMsg i)))
      else validateProjects repoConfig (S i) rest
  end.

Definition ParseAndValidate (r : ReaderT) (configData : list Byte.byte)
    : RepoConfig.t * option error :=
  match yaml_UnmarshalStrict configData RepoConfig.zero with
  | (repoConfig, Some err) =>
      (repoConfig,
       Some (errors_New
               (strings_Replace (Error err) " into repoconfig.RepoConfig" "")))
  | (repoConfig, None) =>
      if negb (RepoConfig.Version repoConfig =? 2)%Z
      then (repoConfig, Some (errors_New unknownVersionMsg))
      else if (length (RepoConfig.Projects repoConfig) =? 0)%nat
      then (repoConfig, Some (errors_New noProjectsMsg))
      else validateProjects repoConfig 0 (RepoConfig.Projects repoConfig)
  end.

Definition ReadConfig (fs : FileSystem) (r : ReaderT) (repoDir : string)
    : option RepoConfig.t * option error :=
  let configFile := filepath_Join repoDir AtlantisYAMLFilename in
  match fs configFile with
  | (configData, Some err) =>
      if os_IsNotExist err
      then (None, None)
      else (None,
            Some (errors_Wrapf err ("unable to read " +:+ AtlantisYAMLFilename +:+ " file")))
  | (configData, None) =>
      match ParseAndValidate r configData with
      | (config, Some err) =>
          (None, Some (errors_Wrapf err ("parsing " +:+ AtlantisYAMLFilename)))
      | (config, None) => (Some config, None)
      end
  end.

Definition buildMeta (r : ReaderT) (log : SimpleLogger)
    (repoDir workspace relProjectPath : string)
    (extraCommentArgs : list string) (username : string) : Meta :=
  {| StepMeta.Log := log;
     StepMeta.Workspace := workspace;
     StepMeta.AbsolutePath := filepath_Join repoDir relProjectPath;
     StepMeta.DirRelativeToRepoRoot := relProjectPath;
     StepMeta.TerraformVersion := Reader.DefaultTFVersion r;
     StepMeta.TerraformExecutor := Reader.TerraformExecutor r;
     StepMeta.ExtraCommentArgs := extraCommentArgs;
     StepMeta.Username := username |}.

(** The [switch] of [BuildStage]: [var step Step] stays [nil] when no
    case applies. *)
Definition switchStepType (meta : Meta) (stepConfig : StepConfig.t) : Step :=
  if StepConfig.StepType stepConfig =? "init"
  then InitStep meta (StepConfig.ExtraArgs stepConfig)
  else if StepConfig.StepType stepConfig =? "plan"
  then PlanStep meta (StepConfig.ExtraArgs stepConfig)
  else if StepConfig.StepType stepConfig =? "apply"
  then ApplyStep meta (StepConfig.ExtraArgs stepConfig)
  else nilStep.

(** The loop over [stepsConfig]; every iteration ends with
    [steps = append(steps, step)]. *)
Fixpoint appendSteps (meta : Meta) (stepsConfig : list StepConfig.t)
    (steps : list Step) : list Step :=
  match stepsConfig with
  | [] => steps
  | stepConfig :: rest =>
      appendSteps meta rest (steps ++ [switchStepType meta stepConfig])
  end.

(** The body of [BuildStage] for a project [p] that passed the test of
    the loop over [config.Projects]. *)
Definition buildProject (stageName : string) (r : ReaderT) (log : SimpleLogger)
    (repoDir workspace relProjectPath : string)
    (extraCommentArgs : list string) (username : string)
    (defaults : list Step) (config : RepoConfig.t) (p : ProjectConfig.t)
    : logged (list Step * option error) :=
  let workflowName := ProjectConfig.Workflow p in
  if workflowName =? ""
  then ([noWorkflowLine], (defaults, None))
  else
    match RepoConfig.Workflows config !! workflowName with
    | None =>
        ([], ([], Some (fmt_Errorf
                          ("no workflow with key " +:+ strconv_Quote workflowName
                           +:+ " defined"))))
    | Some workflow =>
        let meta :=
          buildMeta r log repoDir workspace relProjectPath extraCommentArgs username in
        let stepsConfig :=
          if stageName =? PlanStageName
          then StageConfig.Steps (WorkflowConfig.Plan workflow)
          else StageConfig.Steps (WorkflowConfig.Apply workflow) in
        ([], (appendSteps meta stepsConfig [], None))
    end.

(** The loop over [config.Projects], with the [return] that follows it. *)
Fixpoint rangeProjects (stageName : string) (r : ReaderT) (log : SimpleLogger)
    (repoDir workspace relProjectPath : string)
    (extraCommentArgs : list string) (username : string)
    (defaults : list Step) (config : RepoConfig.t)
    (projects : list ProjectConfig.t) : logged (list Step * option error) :=
  match projects with
  | [] =>
      ([], ([], Some (fmt_Errorf
                        ("no project with dir " +:+ strconv_Quote relProjectPath
                         +:+ " and workspace " +:+ strconv_Quote workspace
                         +:+ " defined"))))
  | p :: rest =>
      if (ProjectConfig.Dir p =? relProjectPath)
         && (ProjectConfig.Workspace p =? workspace)
      then buildProject stageName r log repoDir workspace relProjectPath
             extraCommentArgs username defaults config p
      else rangeProjects stageName r log repoDir workspace relProjectPath
             extraCommentArgs username defaults config rest
  end.

Definition BuildStage (fs : FileSystem) (r : ReaderT) (stageName : string)
    (log : SimpleLogger) (repoDir workspace relProjectPath : string)
    (extraCommentArgs : list string) (username : string)
    (defaults : list Step) : logged (list Step * option error) :=
  match ReadConfig fs r repoDir with
  | (_, Some err) => ([], ([], Some err))
  | (None, None) => ([noConfigLine], (defaults, None))
  | (Some config, None) =>
      rangeProjects stageName r log repoDir workspace relProjectPath
        extraCommentArgs username defaults config (RepoConfig.Projects config)
  end.

Definition defaultPlanSteps (r : ReaderT) (log : SimpleLogger)
    (repoDir workspace relProjectPath : string)
    (extraCommentArgs : list string) (username : string) : list Step :=
  let meta :=
    buildMeta r log repoDir workspace relProjectPath extraCommentArgs username in
  [InitStep meta []; PlanStep meta []].

Definition defaultApplySteps (r : ReaderT) (log : SimpleLogger)
    (repoDir workspace relProjectPath : string)
    (extraCommentArgs : list string) (username : string) : list Step :=
  let meta :=
    buildMeta r log repoDir workspace relProjectPath extraCommentArgs username in
  [ApplyStep meta []].

Definition BuildPlanStage (fs : FileSystem) (r : ReaderT) (log : SimpleLogger)
    (repoDir workspace relProjectPath : string)
    (extraCommentArgs : list string) (username : string)
    : logged (option PlanStage * option error) :=
  let defaults :=
    defaultPlanSteps r log repoDir workspace relProjectPath extraCommentArgs username in
  match BuildStage fs r PlanStageName log repoDir workspace relProjectPath
          extraCommentArgs username defaults with
  | (lines, (_, Some err)) => (lines, (None, Some err))
  | (lines, (steps, None)) => (lines, (Some (mkPlanStage steps), None))
  end.

Definition BuildApplyStage (fs : FileSystem) (r : ReaderT) (log : SimpleLogger)
    (repoDir workspace relProjectPath : string)
    (extraCommentArgs : list string) (username : string)
    : logged (option ApplyStage * option error) :=
  let defaults :=
    defaultApplySteps r log repoDir workspace relProjectPath extraCommentArgs username in
  match BuildStage fs r ApplyStageName log repoDir workspace relProjectPath
          extraCommentArgs username defaults with
  | (lines, (_, Some err)) => (lines, (None, Some err))
  | (lines, (steps, None)) => (lines, (Some (mkApplyStage steps), None))
  end.

End ReaderCode.

Arguments Step : clear implicits.
Arguments PlanStage : clear implicits.
Arguments ApplyStage : clear implicits.

(** ** Vocabulary of the properties *)

(** The test of the loop over [config.Projects], as a proposition: the
    entry [p] is declared for the requested directory and workspace. *)
Definition describes (relProjectPath workspace : string) (p : ProjectConfig.t) : Prop :=
  ProjectConfig.Dir p = relProjectPath ∧ ProjectConfig.Workspace p = workspace.

#[global] Instance describes_dec relProjectPath workspace p :
  Decision (describes relProjectPath workspace p) := and_dec _ _.

(** The entry [p] has no directory. *)
Definition dirUnset (p : ProjectConfig.t) : Prop := ProjectConfig.Dir p = "".

#[global] Instance dirUnset_dec p : Decision (dirUnset p) :=
  decide_rel (=) (ProjectConfig.Dir p) "".

(** The step types [BuildStage] has a case for. *)
Definition recognized (stepType : string) : Prop :=
  stepType = "init" ∨ stepType = "plan" ∨ stepType = "apply".

#[global] Instance recognized_dec stepType : Decision (recognized stepType) :=
  or_dec _ _.

(** The [Meta] field of a step; [nil] has none. *)
Definition stepMeta {SimpleLogger Version TerraformExec : Type}
    (s : Step SimpleLogger Version TerraformExec)
    : option (StepMeta.t SimpleLogger Version TerraformExec) :=
  match s with
  | nilStep => None
  | InitStep meta _ | PlanStep meta _ | ApplyStep meta _ => Some meta
  end.

(** [steps] is the expansion of [stepsConfig] under [meta]: entry by
    entry and in the declared order, an "init", "plan" or "apply" entry
    stands as the step of that variant with the entry's extra
    arguments. *)
Definition expandsTo {SimpleLogger Version TerraformExec : Type}
    (meta : StepMeta.t SimpleLogger Version TerraformExec)
    (stepsConfig : list StepConfig.t)
    (steps : list (Step SimpleLogger Version TerraformExec)) : Prop :=
  length steps = length stepsConfig ∧
  ∀ (i : nat) (sc : StepConfig.t),
    stepsConfig !! i = Some sc →
    (StepConfig.StepType sc = "init" →
       steps !! i = Some (InitStep meta (StepConfig.ExtraArgs sc))) ∧
    (StepConfig.StepType sc = "plan" →
       steps !! i = Some (PlanStep meta (StepConfig.ExtraArgs sc))) ∧
    (StepConfig.StepType sc = "apply" →
       steps !! i = Some (ApplyStep meta (StepConfig.ExtraArgs sc))).

(** [old] occurs in [s]. *)
Definition occursIn (old s : string) : Prop :=
  ∃ pre post, s = pre +:+ old +:+ post.

(** The configuration passes the structural validation: version 2, at
    least one project, and a directory in every project. *)
Definition wellFormed (config : RepoConfig.t) : Prop :=
  RepoConfig.Version config = 2%Z ∧
  RepoConfig.Projects config ≠ [] ∧
  Forall (λ q, ProjectConfig.Dir q ≠ "") (RepoConfig.Projects config).

(** ** Sample inputs *)

(** A file system with no file at all. *)
Definition noFiles : FileSystem :=
  fun _ => ([], Some (PathError true "no such file or directory")).

(** A file system whose every path holds [data]. *)
Definition fileWith (data : list Byte.byte) : FileSystem :=
  fun _ => (data, None).

(** Library functions for the samples: paths joined with a slash, the
    decoder given as a table, [%q] as plain double quotes. *)
Definition sampleExternals
    (decode : list Byte.byte -> RepoConfig.t * option error) : Externals :=
  {| filepath_Join := fun a b => a +:+ "/" +:+ b;
     yaml_UnmarshalStrict := fun data _ => decode data;
     strconv_Quote := fun s => dquote +:+ s +:+ dquote |}.

Definition sampleReader : Reader.t string unit :=
  {| Reader.TerraformExecutor := tt; Reader.DefaultTFVersion := "0.11.10" |}.

Definition customWorkflow : WorkflowConfig.t :=
  {| WorkflowConfig.Apply :=
       {| StageConfig.Steps := [ {| StepConfig.StepType := "apply";
                                    StepConfig.ExtraArgs := ["-y"] |} ] |};
     WorkflowConfig.Plan :=
       {| StageConfig.Steps := [ {| StepConfig.StepType := "init";
                                    StepConfig.ExtraArgs := ["-x"] |};
                                 {| StepConfig.StepType := "plan";
                                    StepConfig.ExtraArgs := [] |} ] |} |}.

(** A workflow whose plan stage declares a step of the reserved type. *)
Definition reservedWorkflow : WorkflowConfig.t :=
  {| WorkflowConfig.Apply := {| StageConfig.Steps := [] |};
     WorkflowConfig.Plan :=
       {| StageConfig.Steps := [ {| StepConfig.StepType := "custom";
                                    StepConfig.ExtraArgs := [] |} ] |} |}.

Definition projDefault (workflow : string) : ProjectConfig.t :=
  {| ProjectConfig.Dir := "proj";
     ProjectConfig.Workspace := "default";
     ProjectConfig.Workflow := workflow |}.

Definition sampleConfig (version : Z) (projects : list ProjectConfig.t)
    : RepoConfig.t :=
  {| RepoConfig.Version := version;
     RepoConfig.Projects := projects;
     RepoConfig.Workflows :=
       <["custom1" := customWorkflow]> (<["reserved" := reservedWorkflow]> ∅) |}.

(** The decoder that answers [config] for every input. *)
Definition decodesTo (config : RepoConfig.t) : Externals :=
  sampleExternals (fun _ => (config, None)).

(** The decoder of two files: the byte [x01] alone is [second], every
    other content is [first]. *)
Definition decodesTwo (first second : RepoConfig.t) : Externals :=
  sampleExternals
    (fun data =>
       match data with
       | [Byte.x01] => (second, None)
       | _ => (first, None)
       end).

Definition otherProject : ProjectConfig.t :=
  {| ProjectConfig.Dir := "other";
     ProjectConfig.Workspace := "default";
     ProjectConfig.Workflow := "" |}.

Definition unsetProject : ProjectConfig.t :=
  {| ProjectConfig.Dir := "";
     ProjectConfig.Workspace := "default";
     ProjectConfig.Workflow := "" |}.

(** The metadata of the sample call: logger "log", checkout "/repo",
    workspace "default", project "proj", user "alice". *)
Definition sampleMeta : StepMeta.t string string unit :=
  {| StepMeta.Log := "log";
     StepMeta.Workspace := "default";
     StepMeta.AbsolutePath := "/repo/proj";
     StepMeta.DirRelativeToRepoRoot := "proj";
     StepMeta.TerraformVersion := "0.11.10";
     StepMeta.TerraformExecutor := tt;
     StepMeta.ExtraCommentArgs := ["-var"; "x=1"];
     StepMeta.Username := "alice" |}.

(** The sample call of [BuildStage]. *)
Abbreviation sampleBuildStage E fs stageName defaults :=
  (@BuildStage string string unit E fs sampleReader stageName
     "log" "/repo" "default" "proj" ["-var"; "x=1"] "alice" defaults).

Definition quoted (s : string) : string := dquote +:+ s +:+ dquote.

(** Three entries, the last two declared for the same pair. *)
Definition twiceDeclared : RepoConfig.t :=
  sampleConfig 2 [otherProject; projDefault "custom1"; projDefault ""].

Definition onceDeclared : RepoConfig.t :=
  sampleConfig 2 [otherProject; projDefault "custom1"].

(** A file system whose every file exists and cannot be read. *)
Definition unreadable : FileSystem :=
  fun _ => ([], Some (PathError false "permission denied")).

(** The decoder that fails with the message [msg] for every input. *)
Definition failingDecoder (msg : string) : Externals :=
  sampleExternals (fun _ => (RepoConfig.zero, Some (errorString msg))).

(** A workflow whose plan stage has a step of the reserved type between
    an init and a plan step. *)
Definition mixedWorkflow : WorkflowConfig.t :=
  {| WorkflowConfig.Apply := {| StageConfig.Steps := [] |};
     WorkflowConfig.Plan :=
       {| StageConfig.Steps := [ {| StepConfig.StepType := "init";
                                    StepConfig.ExtraArgs := ["-x"] |};
                                 {| StepConfig.StepType := "custom";
                                    StepConfig.ExtraArgs := [] |};
                                 {| StepConfig.StepType := "plan";
                                    StepConfig.ExtraArgs := [] |} ] |} |}.

Definition mixedConfig : RepoConfig.t :=
  {| RepoConfig.Version := 2;
     RepoConfig.Projects := [projDefault "mixed"];
     RepoConfig.Workflows := <["mixed" := mixedWorkflow]> ∅ |}.

(** The directory of [projDefault] under another workspace and a
    workflow that no map holds. *)
Definition stagingConfig : RepoConfig.t :=
  {| RepoConfig.Version := 2;
     RepoConfig.Projects :=
       [ {| ProjectConfig.Dir := "proj";
            ProjectConfig.Workspace := "staging";
            ProjectConfig.Workflow := "nowhere" |} ];
     RepoConfig.Workflows := ∅ |}.

(** [customWorkflow] with another apply stage. *)
Definition customWorkflowNoApply : WorkflowConfig.t :=
  {| WorkflowConfig.Apply := {| StageConfig.Steps := [] |};
     WorkflowConfig.Plan := WorkflowConfig.Plan customWorkflow |}.

Definition onceDeclaredNoApply : RepoConfig.t :=
  {| RepoConfig.Version := 2;
     RepoConfig.Projects := [otherProject; projDefault "custom1"];
     RepoConfig.Workflows :=
       <["custom1" := customWorkflowNoApply]>
         (<["reserved" := reservedWorkflow]> ∅) |}.

(** ** Properties *)

Section ReaderProperties.
Context {SimpleLogger Version TerraformExec : Type}.
Context `{Externals}.

Local Abbreviation Meta := (StepMeta.t SimpleLogger Version TerraformExec).
Local Abbreviation ReaderT := (Reader.t Version TerraformExec).
Local Abbreviation StepT := (Step SimpleLogger Version TerraformExec).

Implicit Types (r : ReaderT) (log : SimpleLogger) (fs : FileSystem).
Implicit Types (config : RepoConfig.t) (p : ProjectConfig.t).
Implicit Types (projects pre post : list ProjectConfig.t).
Implicit Types (defaults steps : list StepT) (meta : Meta).
Implicit Types (stepsConfig : list StepConfig.t).

(** *** The validation loop *)

Lemma validateProjects_stops config k pre p post :
  Forall (λ q, ProjectConfig.Dir q ≠ "") pre →
  ProjectConfig.Dir p = "" →
  validateProjects config k (pre ++ p :: post)
  = (config, Some (errorString (invalidDirMsg (k + List.length pre)))).
Proof.
  intros Hpre Hp. revert k.
  induction Hpre as [|q pre Hq _ IH]; intros k; cbn [app validateProjects length].
  - rewrite Hp. cbn. by rewrite Nat.add_0_r.
  - apply String.eqb_neq in Hq. rewrite Hq, IH. do 4 f_equal. lia.
Qed.

Lemma validateProjects_passes config k projects :
  Forall (λ q, ProjectConfig.Dir q ≠ "") projects →
  validateProjects config k projects = (config, None).
Proof.
  intros Hall. revert k.
  induction Hall as [|q rest Hq _ IH]; intros k; cbn [validateProjects]; [done|].
  apply String.eqb_neq in Hq. by rewrite Hq.
Qed.

(** *** ParseAndValidate *)

(** C3: a configuration that decodes without error and whose version is
    not 2 is refused with the message
    [unknown version: must have "version: 2" set], whatever else it
    holds; the decoded value is returned beside the error. *)
Theorem C3_version_not_2_rejected r (configData : list Byte.byte) config :
  yaml_UnmarshalStrict configData RepoConfig.zero = (config, None) →
  RepoConfig.Version config ≠ 2%Z →
  ParseAndValidate r configData = (config, Some (errorString unknownVersionMsg)).
Proof.
  intros Hdec Hver. unfold ParseAndValidate. rewrite Hdec.
  apply Z.eqb_neq in Hver. by rewrite Hver.
Qed.

(** C4: once the version is 2, an empty project list is refused with
    the 'projects' message; otherwise the first entry without a
    directory is refused with the message naming its index, whatever
    the entries after it are; and a non-empty list whose entries all
    have a directory is accepted. *)
Theorem C4_projects_validated_in_order r (configData : list Byte.byte) config :
  yaml_UnmarshalStrict configData RepoConfig.zero = (config, None) →
  RepoConfig.Version config = 2%Z →
  (RepoConfig.Projects config = [] →
     ParseAndValidate r configData = (config, Some (errorString noProjectsMsg))) ∧
  (∀ pre p post,
     RepoConfig.Projects config = (pre ++ p :: post)%list →
     Forall (λ q, ProjectConfig.Dir q ≠ "") pre →
     ProjectConfig.Dir p = "" →
     ParseAndValidate r configData
     = (config, Some (errorString (invalidDirMsg (List.length pre))))) ∧
  (RepoConfig.Projects config ≠ [] →
     Forall (λ q, ProjectConfig.Dir q ≠ "") (RepoConfig.Projects config) →
     ParseAndValidate r configData = (config, None)).
Proof.
  intros Hdec Hver. unfold ParseAndValidate. rewrite Hdec, Hver. cbn.
  split_and!.
  - by intros ->.
  - intros pre p post Hps Hpre Hp. rewrite Hps.
    replace (length (pre ++ p :: post) =? 0)%nat with false
      by (symmetry; apply Nat.eqb_neq; rewrite length_app; cbn; lia).
    apply (validateProjects_stops config 0 pre p post Hpre Hp).
  - intros Hne Hall.
    destruct (RepoConfig.Projects config) as [|q rest] eqn:Hps; [done|].
    cbn [length Nat.eqb]. by apply validateProjects_passes.
Qed.

(** *** ReadConfig *)

Lemma ReadConfig_absent fs r repoDir (data : list Byte.byte) err :
  fs (filepath_Join repoDir AtlantisYAMLFilename) = (data, Some err) →
  os_IsNotExist err = true →
  ReadConfig fs r repoDir = (None, None).
Proof. intros Hfs Hne. unfold ReadConfig. by rewrite Hfs, Hne. Qed.

(** *** The loop over the projects *)

Lemma describes_test relProjectPath workspace p :
  (ProjectConfig.Dir p =? relProjectPath)
  && (ProjectConfig.Workspace p =? workspace) = true
  ↔ describes relProjectPath workspace p.
Proof.
  unfold describes. rewrite andb_true_iff, !String.eqb_eq. tauto.
Qed.

Lemma rangeProjects_first stageName r log repoDir workspace relProjectPath
    extraCommentArgs username defaults config pre p post :
  Forall (λ q, ¬ describes relProjectPath workspace q) pre →
  describes relProjectPath workspace p →
  rangeProjects stageName r log repoDir workspace relProjectPath
    extraCommentArgs username defaults config (pre ++ p :: post)
  = buildProject stageName r log repoDir workspace relProjectPath
      extraCommentArgs username defaults config p.
Proof.
  intros Hpre Hp.
  induction Hpre as [|q pre Hq _ IH]; cbn [app rangeProjects].
  - apply describes_test in Hp. by rewrite Hp.
  - rewrite <- describes_test in Hq. apply not_true_is_false in Hq.
    by rewrite Hq.
Qed.

Lemma rangeProjects_none stageName r log repoDir workspace relProjectPath
    extraCommentArgs username defaults config projects :
  Forall (λ q, ¬ describes relProjectPath workspace q) projects →
  rangeProjects stageName r log repoDir workspace relProjectPath
    extraCommentArgs username defaults config projects
  = ([], ([], Some (errorString
                      ("no project with dir " +:+ strconv_Quote relProjectPath
                       +:+ " and workspace " +:+ strconv_Quote workspace
                       +:+ " defined")))).
Proof.
  induction 1 as [|q rest Hq _ IH]; cbn [rangeProjects]; [done|].
  rewrite <- describes_test in Hq. apply not_true_is_false in Hq.
  by rewrite Hq.
Qed.

(** Either no entry is declared for the requested pair, or there is a
    first one. *)
Lemma first_describing relProjectPath workspace projects :
  Forall (λ q, ¬ describes relProjectPath workspace q) projects ∨
  ∃ pre p post,
    projects = (pre ++ p :: post)%list ∧
    Forall (λ q, ¬ describes relProjectPath workspace q) pre ∧
    describes relProjectPath workspace p.
Proof.
  induction projects as [|q rest IH]; [by left|].
  destruct (decide (describes relProjectPath workspace q)) as [Hq|Hq].
  - right. by exists [], q, rest.
  - destruct IH as [Hnone|(pre & p & post & -> & Hpre & Hp)].
    + left. by constructor.
    + right. exists (q :: pre), p, post. split_and!; [done| |done].
      by constructor.
Qed.

(** *** The loop over the steps *)

Lemma appendSteps_map meta stepsConfig steps :
  appendSteps meta stepsConfig steps
  = (steps ++ map (switchStepType meta) stepsConfig)%list.
Proof.
  revert steps. induction stepsConfig as [|sc rest IH]; intros steps; cbn.
  - by rewrite app_nil_r.
  - by rewrite IH, <- app_assoc.
Qed.

Lemma appendSteps_length meta stepsConfig :
  length (appendSteps meta stepsConfig []) = length stepsConfig.
Proof. rewrite appendSteps_map. cbn. apply length_map. Qed.

Lemma appendSteps_expands meta stepsConfig :
  expandsTo meta stepsConfig (appendSteps meta stepsConfig []).
Proof.
  split; [apply appendSteps_length|].
  intros i sc Hi. rewrite appendSteps_map. cbn [app].
  rewrite list_lookup_fmap, Hi. cbn. unfold switchStepType.
  split_and!; intros ->; done.
Qed.

Lemma appendSteps_meta meta stepsConfig s m :
  s ∈ appendSteps meta stepsConfig [] → stepMeta s = Some m → m = meta.
Proof.
  rewrite appendSteps_map. cbn [app].
  intros (sc & -> & _)%list_elem_of_fmap. unfold switchStepType.
  repeat case_match; cbn; congruence.
Qed.

Lemma appendSteps_recognized meta stepsConfig :
  Forall (λ sc, recognized (StepConfig.StepType sc)) stepsConfig →
  Forall (λ s, stepMeta s = Some meta) (appendSteps meta stepsConfig []).
Proof.
  rewrite appendSteps_map. cbn [app]. intros Hall.
  apply Forall_fmap. eapply Forall_impl; [exact Hall|].
  intros sc Hrec. unfold compose, switchStepType.
  destruct Hrec as [-> | [-> | ->]]; done.
Qed.

(** *** BuildStage *)

Lemma BuildStage_config fs r stageName log repoDir workspace relProjectPath
    extraCommentArgs username defaults config :
  ReadConfig fs r repoDir = (Some config, None) →
  BuildStage fs r stageName log repoDir workspace relProjectPath
    extraCommentArgs username defaults
  = rangeProjects stageName r log repoDir workspace relProjectPath
      extraCommentArgs username defaults config (RepoConfig.Projects config).
Proof. intros Hread. unfold BuildStage. by rewrite Hread. Qed.

(** C2: where [atlantis.yaml] does not exist, [ReadConfig] returns no
    configuration and no error, [BuildStage] returns the defaults it was
    given, and the two stage builders return the built-in pipelines:
    init then plan, and apply alone, every step without extra arguments
    and with the metadata of the call. *)
Theorem C2_absent_file_gives_defaults fs r log repoDir workspace relProjectPath
    extraCommentArgs username (data : list Byte.byte) err :
  fs (filepath_Join repoDir AtlantisYAMLFilename) = (data, Some err) →
  os_IsNotExist err = true →
  let meta :=
    buildMeta r log repoDir workspace relProjectPath extraCommentArgs username in
  ReadConfig fs r repoDir = (None, None) ∧
  (∀ stageName defaults,
     BuildStage fs r stageName log repoDir workspace relProjectPath
       extraCommentArgs username defaults
     = ([noConfigLine], (defaults, None))) ∧
  BuildPlanStage fs r log repoDir workspace relProjectPath
    extraCommentArgs username
  = ([noConfigLine],
     (Some (mkPlanStage [InitStep meta []; PlanStep meta []]), None)) ∧
  BuildApplyStage fs r log repoDir workspace relProjectPath
    extraCommentArgs username
  = ([noConfigLine], (Some (mkApplyStage [ApplyStep meta []]), None)).
Proof.
  intros Hfs Hne meta.
  pose proof (ReadConfig_absent fs r repoDir data err Hfs Hne) as Hread.
  assert (∀ stageName defaults,
            BuildStage fs r stageName log repoDir workspace relProjectPath
              extraCommentArgs username defaults
            = ([noConfigLine], (defaults, None))) as Hbuild.
  { intros stageName defaults. unfold BuildStage. by rewrite Hread. }
  split_and!; [done|done| |].
  - unfold BuildPlanStage. by rewrite Hbuild.
  - unfold BuildApplyStage. by rewrite Hbuild.
Qed.

(** C5: the first entry declared for the requested directory and
    workspace decides the result, whatever the entries after it are:
    the result is the one built from that entry, and a configuration
    that differs only in the entries after it gives the same result. *)
Theorem C5_first_declared_project_wins fs r stageName log repoDir workspace
    relProjectPath extraCommentArgs username defaults config pre p post :
  ReadConfig fs r repoDir = (Some config, None) →
  RepoConfig.Projects config = (pre ++ p :: post)%list →
  Forall (λ q, ¬ describes relProjectPath workspace q) pre →
  describes relProjectPath workspace p →
  BuildStage fs r stageName log repoDir workspace relProjectPath
    extraCommentArgs username defaults
  = buildProject stageName r log repoDir workspace relProjectPath
      extraCommentArgs username defaults config p
  ∧
  ∀ fs' config' post',
    ReadConfig fs' r repoDir = (Some config', None) →
    RepoConfig.Projects config' = (pre ++ p :: post')%list →
    RepoConfig.Workflows config' = RepoConfig.Workflows config →
    BuildStage fs' r stageName log repoDir workspace relProjectPath
      extraCommentArgs username defaults
    = BuildStage fs r stageName log repoDir workspace relProjectPath
        extraCommentArgs username defaults.
Proof.
  intros Hread Hps Hpre Hp.
  assert (BuildStage fs r stageName log repoDir workspace relProjectPath
            extraCommentArgs username defaults
          = buildProject stageName r log repoDir workspace relProjectPath
              extraCommentArgs username defaults config p) as Hfirst.
  { rewrite (BuildStage_config _ _ _ _ _ _ _ _ _ _ config Hread), Hps.
    by apply rangeProjects_first. }
  split; [exact Hfirst|].
  intros fs' config' post' Hread' Hps' Hwf.
  rewrite Hfirst, (BuildStage_config _ _ _ _ _ _ _ _ _ _ config' Hread'), Hps'.
  rewrite (rangeProjects_first _ _ _ _ _ _ _ _ _ _ _ _ _ Hpre Hp).
  unfold buildProject. by rewrite Hwf.
Qed.

(** C6: with a configuration present, [BuildStage] fails in two cases
    and no other.  When no entry is declared for the requested pair the
    error names the requested directory and workspace and no step is
    returned; when the first such entry names a workflow that is not in
    the map the error names that workflow and no step is returned. *)
Theorem C6_lookup_errors fs r stageName log repoDir workspace relProjectPath
    extraCommentArgs username defaults config :
  ReadConfig fs r repoDir = (Some config, None) →
  let result :=
    BuildStage fs r stageName log repoDir workspace relProjectPath
      extraCommentArgs username defaults in
  (Forall (λ q, ¬ describes relProjectPath workspace q)
     (RepoConfig.Projects config) →
   result
   = ([], ([], Some (errorString
                       ("no project with dir " +:+ strconv_Quote relProjectPath
                        +:+ " and workspace " +:+ strconv_Quote workspace
                        +:+ " defined"))))) ∧
  (∀ pre p post,
     RepoConfig.Projects config = (pre ++ p :: post)%list →
     Forall (λ q, ¬ describes relProjectPath workspace q) pre →
     describes relProjectPath workspace p →
     ProjectConfig.Workflow p ≠ "" →
     RepoConfig.Workflows config !! ProjectConfig.Workflow p = None →
     result
     = ([], ([], Some (errorString
                         ("no workflow with key "
                          +:+ strconv_Quote (ProjectConfig.Workflow p)
                          +:+ " defined"))))) ∧
  (∀ e, result.2.2 = Some e →
     Forall (λ q, ¬ describes relProjectPath workspace q)
       (RepoConfig.Projects config) ∨
     ∃ pre p post,
       RepoConfig.Projects config = (pre ++ p :: post)%list ∧
       Forall (λ q, ¬ describes relProjectPath workspace q) pre ∧
       describes relProjectPath workspace p ∧
       ProjectConfig.Workflow p ≠ "" ∧
       RepoConfig.Workflows config !! ProjectConfig.Workflow p = None).
Proof.
  intros Hread result. subst result.
  rewrite (BuildStage_config _ _ _ _ _ _ _ _ _ _ config Hread).
  split_and!.
  - apply rangeProjects_none.
  - intros pre p post Hps Hpre Hp Hname Hlookup.
    rewrite Hps, (rangeProjects_first _ _ _ _ _ _ _ _ _ _ _ _ _ Hpre Hp).
    unfold buildProject. apply String.eqb_neq in Hname.
    by rewrite Hname, Hlookup.
  - intros e He.
    destruct (first_describing relProjectPath workspace
                (RepoConfig.Projects config))
      as [Hnone|(pre & p & post & Hps & Hpre & Hp)]; [by left|right].
    exists pre, p, post. split_and!; try done.
    + intros Hname. rewrite Hps in He.
      rewrite (rangeProjects_first _ _ _ _ _ _ _ _ _ _ _ _ _ Hpre Hp) in He.
      unfold buildProject in He. by rewrite Hname in He.
    + rewrite Hps in He.
      rewrite (rangeProjects_first _ _ _ _ _ _ _ _ _ _ _ _ _ Hpre Hp) in He.
      unfold buildProject in He.
      destruct (ProjectConfig.Workflow p =? "") eqn:Hname; [done|].
      by destruct (RepoConfig.Workflows config !! ProjectConfig.Workflow p).
Qed.

Lemma BuildStage_workflow fs r stageName log repoDir workspace relProjectPath
    extraCommentArgs username defaults config pre p post workflow :
  ReadConfig fs r repoDir = (Some config, None) →
  RepoConfig.Projects config = (pre ++ p :: post)%list →
  Forall (λ q, ¬ describes relProjectPath workspace q) pre →
  describes relProjectPath workspace p →
  ProjectConfig.Workflow p ≠ "" →
  RepoConfig.Workflows config !! ProjectConfig.Workflow p = Some workflow →
  BuildStage fs r stageName log repoDir workspace relProjectPath
    extraCommentArgs username defaults
  = ([], (appendSteps
            (buildMeta r log repoDir workspace relProjectPath
               extraCommentArgs username)
            (if stageName =? PlanStageName
             then StageConfig.Steps (WorkflowConfig.Plan workflow)
             else StageConfig.Steps (WorkflowConfig.Apply workflow)) [],
          None)).
Proof.
  intros Hread Hps Hpre Hp Hname Hlookup.
  rewrite (BuildStage_config _ _ _ _ _ _ _ _ _ _ config Hread), Hps.
  rewrite (rangeProjects_first _ _ _ _ _ _ _ _ _ _ _ _ _ Hpre Hp).
  unfold buildProject. apply String.eqb_neq in Hname.
  by rewrite Hname, Hlookup.
Qed.

(** C7: when the first entry declared for the requested pair names a
    workflow of the map, [BuildStage] succeeds and returns the
    expansion of the requested stage's entries, in the declared order:
    an init, plan or apply entry becomes the step of that variant with
    the entry's extra arguments.  The metadata of every step returned
    is the one made of the call's workspace, the checkout path joined
    with the relative path, the relative path, the reader's default
    version and executor, the extra comment arguments and the
    username; when every entry is of a recognized type, every element
    returned carries it. *)
Theorem C7_workflow_steps_expanded fs r stageName log repoDir workspace
    relProjectPath extraCommentArgs username defaults config pre p post workflow :
  ReadConfig fs r repoDir = (Some config, None) →
  RepoConfig.Projects config = (pre ++ p :: post)%list →
  Forall (λ q, ¬ describes relProjectPath workspace q) pre →
  describes relProjectPath workspace p →
  ProjectConfig.Workflow p ≠ "" →
  RepoConfig.Workflows config !! ProjectConfig.Workflow p = Some workflow →
  let meta : Meta :=
    {| StepMeta.Log := log;
       StepMeta.Workspace := workspace;
       StepMeta.AbsolutePath := filepath_Join repoDir relProjectPath;
       StepMeta.DirRelativeToRepoRoot := relProjectPath;
       StepMeta.TerraformVersion := Reader.DefaultTFVersion r;
       StepMeta.TerraformExecutor := Reader.TerraformExecutor r;
       StepMeta.ExtraCommentArgs := extraCommentArgs;
       StepMeta.Username := username |} in
  ∃ steps,
    BuildStage fs r stageName log repoDir workspace relProjectPath
      extraCommentArgs username defaults
    = ([], (steps, None)) ∧
    (stageName = "plan" →
       expandsTo meta (StageConfig.Steps (WorkflowConfig.Plan workflow)) steps ∧
       (Forall (λ sc, recognized (StepConfig.StepType sc))
          (StageConfig.Steps (WorkflowConfig.Plan workflow)) →
        Forall (λ s, stepMeta s = Some meta) steps)) ∧
    (stageName = "apply" →
       expandsTo meta (StageConfig.Steps (WorkflowConfig.Apply workflow)) steps ∧
       (Forall (λ sc, recognized (StepConfig.StepType sc))
          (StageConfig.Steps (WorkflowConfig.Apply workflow)) →
        Forall (λ s, stepMeta s = Some meta) steps)) ∧
    (∀ s m, s ∈ steps → stepMeta s = Some m → m = meta).
Proof.
  intros Hread Hps Hpre Hp Hname Hlookup meta.
  eexists. split.
  { by apply (BuildStage_workflow _ _ _ _ _ _ _ _ _ _ config pre p post workflow). }
  split_and!.
  - intros ->. cbn. split; [apply appendSteps_expands|apply appendSteps_recognized].
  - intros ->. cbn. split; [apply appendSteps_expands|apply appendSteps_recognized].
  - intros s m. apply appendSteps_meta.
Qed.

(** C8: when the first entry declared for the requested pair has an
    empty workflow, [BuildStage] logs that no workflow is set and
    returns the defaults without error, whatever the workflows map
    holds; the stage builders then return init then plan, and apply
    alone. *)
Theorem C8_empty_workflow_gives_defaults fs r log repoDir workspace
    relProjectPath extraCommentArgs username config pre p post :
  ReadConfig fs r repoDir = (Some config, None) →
  RepoConfig.Projects config = (pre ++ p :: post)%list →
  Forall (λ q, ¬ describes relProjectPath workspace q) pre →
  describes relProjectPath workspace p →
  ProjectConfig.Workflow p = "" →
  let meta :=
    buildMeta r log repoDir workspace relProjectPath extraCommentArgs username in
  (∀ stageName defaults,
     BuildStage fs r stageName log repoDir workspace relProjectPath
       extraCommentArgs username defaults
     = ([noWorkflowLine], (defaults, None))) ∧
  BuildPlanStage fs r log repoDir workspace relProjectPath
    extraCommentArgs username
  = ([noWorkflowLine],
     (Some (mkPlanStage [InitStep meta []; PlanStep meta []]), None)) ∧
  BuildApplyStage fs r log repoDir workspace relProjectPath
    extraCommentArgs username
  = ([noWorkflowLine], (Some (mkApplyStage [ApplyStep meta []]), None)).
Proof.
  intros Hread Hps Hpre Hp Hname meta.
  assert (∀ stageName defaults,
            BuildStage fs r stageName log repoDir workspace relProjectPath
              extraCommentArgs username defaults
            = ([noWorkflowLine], (defaults, None))) as Hbuild.
  { intros stageName defaults.
    rewrite (BuildStage_config _ _ _ _ _ _ _ _ _ _ config Hread), Hps.
    rewrite (rangeProjects_first _ _ _ _ _ _ _ _ _ _ _ _ _ Hpre Hp).
    unfold buildProject. by rewrite Hname. }
  split_and!; [done| |].
  - unfold BuildPlanStage. by rewrite Hbuild.
  - unfold BuildApplyStage. by rewrite Hbuild.
Qed.

(** C10: when the first entry declared for the requested pair names a
    workflow of the map, every stage name other than "plan" is served
    from the workflow's apply stage: the call succeeds, returns the
    expansion of the apply entries, and equals the call for "apply". *)
Theorem C10_other_stage_names_select_apply fs r stageName log repoDir workspace
    relProjectPath extraCommentArgs username defaults config pre p post workflow :
  ReadConfig fs r repoDir = (Some config, None) →
  RepoConfig.Projects config = (pre ++ p :: post)%list →
  Forall (λ q, ¬ describes relProjectPath workspace q) pre →
  describes relProjectPath workspace p →
  ProjectConfig.Workflow p ≠ "" →
  RepoConfig.Workflows config !! ProjectConfig.Workflow p = Some workflow →
  stageName ≠ "plan" →
  ∃ steps,
    BuildStage fs r stageName log repoDir workspace relProjectPath
      extraCommentArgs username defaults
    = ([], (steps, None)) ∧
    expandsTo
      (buildMeta r log repoDir workspace relProjectPath extraCommentArgs username)
      (StageConfig.Steps (WorkflowConfig.Apply workflow)) steps ∧
    BuildStage fs r ApplyStageName log repoDir workspace relProjectPath
      extraCommentArgs username defaults
    = ([], (steps, None)).
Proof.
  intros Hread Hps Hpre Hp Hname Hlookup Hstage.
  pose proof (BuildStage_workflow fs r stageName log repoDir workspace
                relProjectPath extraCommentArgs username defaults config pre p
                post workflow Hread Hps Hpre Hp Hname Hlookup) as Hbuild.
  apply String.eqb_neq in Hstage. unfold PlanStageName in Hbuild.
  rewrite Hstage in Hbuild.
  eexists. split_and!.
  - exact Hbuild.
  - apply appendSteps_expands.
  - by rewrite (BuildStage_workflow _ _ ApplyStageName _ _ _ _ _ _ _ config pre p
                  post workflow).
Qed.

(** *** Entries of an unrecognized type *)

(** The switch has no case for them: the step stays [nil], and the
    loop appends it like any other. *)
Lemma switchStepType_unrecognized meta (sc : StepConfig.t) :
  ¬ recognized (StepConfig.StepType sc) → switchStepType meta sc = nilStep.
Proof.
  intros Hrec. unfold switchStepType, recognized in *.
  destruct (StepConfig.StepType sc =? "init") eqn:Hinit.
  { apply String.eqb_eq in Hinit. tauto. }
  destruct (StepConfig.StepType sc =? "plan") eqn:Hplan.
  { apply String.eqb_eq in Hplan. tauto. }
  destruct (StepConfig.StepType sc =? "apply") eqn:Happly.
  { apply String.eqb_eq in Happly. tauto. }
  reflexivity.
Qed.

Lemma appendSteps_unrecognized meta stepsConfig (i : nat) (sc : StepConfig.t) :
  stepsConfig !! i = Some sc →
  ¬ recognized (StepConfig.StepType sc) →
  appendSteps meta stepsConfig [] !! i = Some nilStep.
Proof.
  intros Hi Hrec. rewrite appendSteps_map. cbn [app].
  rewrite list_lookup_fmap, Hi. cbn.
  by rewrite switchStepType_unrecognized.
Qed.

(** *** The decoder's message *)

(** The type name the decoder puts in its message is cut out, once or
    several times. *)
Example strings_Replace_cuts_type_name :
  strings_Replace
    "cannot unmarshal !!str `x` into repoconfig.RepoConfig, nor !!seq into repoconfig.RepoConfig"
    " into repoconfig.RepoConfig" ""
  = "cannot unmarshal !!str `x`, nor !!seq".
Proof. reflexivity. Qed.

(** *** Strings *)

Lemma string_app_length (s t : string) :
  String.length (s +:+ t) = String.length s + String.length t.
Proof.
  induction s as [|c s IH]; [done|].
  change (String c s +:+ t) with (String c (s +:+ t)). cbn. by rewrite IH.
Qed.

Lemma string_app_inj_r (s1 s2 t : string) : s1 +:+ t = s2 +:+ t → s1 = s2.
Proof.
  revert s2. induction s1 as [|c s1 IH]; intros [|d s2] Heq.
  - done.
  - apply (f_equal String.length) in Heq.
    rewrite !string_app_length in Heq. simpl in Heq. lia.
  - apply (f_equal String.length) in Heq.
    rewrite !string_app_length in Heq. simpl in Heq. lia.
  - simpl in Heq. injection Heq as -> Heq. f_equal. by apply IH.
Qed.

Lemma prefix_true_app (old s : string) :
  String.prefix old s = true → ∃ tail, s = old +:+ tail.
Proof.
  revert s. induction old as [|c old IH]; intros s Hpre.
  - by exists s.
  - destruct s as [|d s]; simpl in Hpre; [done|].
    destruct (ascii_dec c d) as [->|]; [|done].
    destruct (IH s Hpre) as [tail ->]. by exists tail.
Qed.

Lemma replaceFrom_absent (old new s : string) :
  ¬ occursIn old s → replaceFrom old new 0 s = s.
Proof.
  induction s as [|c s IH]; intros Hocc; [done|].
  cbn [replaceFrom].
  destruct (String.prefix old (String c s)) eqn:Hpre.
  - destruct (prefix_true_app _ _ Hpre) as [tail Htail].
    destruct Hocc. by exists "", tail.
  - f_equal. apply IH. intros (front & tail & ->).
    apply Hocc. by exists (String c front), tail.
Qed.

(** *** ParseAndValidate, beyond the three messages *)

Lemma validateProjects_value config k projects :
  (validateProjects config k projects).1 = config.
Proof.
  revert k. induction projects as [|q rest IH]; intros k; cbn [validateProjects].
  - done.
  - by destruct (ProjectConfig.Dir q =? "").
Qed.

Lemma validateProjects_accepts config k projects :
  (validateProjects config k projects).2 = None
  ↔ Forall (λ q, ProjectConfig.Dir q ≠ "") projects.
Proof.
  revert k. induction projects as [|q rest IH]; intros k; cbn [validateProjects].
  - split; [constructor|done].
  - destruct (ProjectConfig.Dir q =? "") eqn:Hq.
    + apply String.eqb_eq in Hq. split; [done|].
      intros Hall. by inversion Hall.
    + apply String.eqb_neq in Hq. rewrite IH. split.
      * by constructor.
      * intros Hall. by inversion Hall.
Qed.

Lemma validateProjects_dirs config1 config2 k projects1 projects2 :
  map ProjectConfig.Dir projects1 = map ProjectConfig.Dir projects2 →
  (validateProjects config1 k projects1).2
  = (validateProjects config2 k projects2).2.
Proof.
  revert k projects2.
  induction projects1 as [|q1 rest1 IH]; intros k [|q2 rest2] Hdirs;
    try discriminate Hdirs; [done|].
  cbn in Hdirs. injection Hdirs as Hq Hrest.
  cbn [validateProjects]. rewrite Hq.
  destruct (ProjectConfig.Dir q2 =? ""); [done|]. by apply IH.
Qed.

(** The value [ParseAndValidate] returns is the decoder's, whether the
    decoding or any validation failed or not. *)
Theorem ParseAndValidate_returns_decoded r (configData : list Byte.byte) :
  (ParseAndValidate r configData).1
  = (yaml_UnmarshalStrict configData RepoConfig.zero).1.
Proof.
  unfold ParseAndValidate.
  destruct (yaml_UnmarshalStrict configData RepoConfig.zero) as [config [err|]];
    [done|].
  destruct (negb (RepoConfig.Version config =? 2)%Z); [done|].
  destruct (List.length (RepoConfig.Projects config) =? 0)%nat; [done|].
  apply validateProjects_value.
Qed.

(** [ParseAndValidate] returns no error exactly when the decoder
    returns none and the decoded configuration has version 2, at least
    one project and a directory in every project. *)
Theorem ParseAndValidate_accepts_iff r (configData : list Byte.byte) :
  (ParseAndValidate r configData).2 = None
  ↔ (yaml_UnmarshalStrict configData RepoConfig.zero).2 = None ∧
    wellFormed (yaml_UnmarshalStrict configData RepoConfig.zero).1.
Proof.
  unfold ParseAndValidate, wellFormed.
  destruct (yaml_UnmarshalStrict configData RepoConfig.zero) as [config [err|]];
    cbn [fst snd].
  { split; [done|]. by intros [? _]. }
  destruct (RepoConfig.Version config =? 2)%Z eqn:Hver; cbn [negb].
  - apply Z.eqb_eq in Hver.
    destruct (RepoConfig.Projects config) as [|q rest] eqn:Hps; cbn [length Nat.eqb].
    + split; [done|]. by intros (_ & _ & Hne & _).
    + rewrite validateProjects_accepts.
      split; [intros Hall; by split_and!|by intros (_ & _ & _ & Hall)].
  - apply Z.eqb_neq in Hver. split; [done|]. by intros (_ & ? & _).
Qed.

(** When the decoder fails, validation is not run: the error returned
    carries the decoder's message with every " into
    repoconfig.RepoConfig" cut out, which is the decoder's message
    itself when it does not hold that text. *)
Theorem ParseAndValidate_decode_error r (configData : list Byte.byte) config err :
  yaml_UnmarshalStrict configData RepoConfig.zero = (config, Some err) →
  ParseAndValidate r configData
  = (config,
     Some (errorString
             (strings_Replace (Error err) " into repoconfig.RepoConfig" ""))) ∧
  (¬ occursIn " into repoconfig.RepoConfig" (Error err) →
   ParseAndValidate r configData = (config, Some (errorString (Error err)))).
Proof.
  intros Hdec. unfold ParseAndValidate. rewrite Hdec. split; [done|].
  intros Hocc. unfold strings_Replace. by rewrite replaceFrom_absent.
Qed.

(** Validation reads the version and the directories only: two decoded
    configurations that agree on them are both accepted or both refused
    with the same error, whatever their workspaces, workflow names and
    workflows are. *)
Theorem ParseAndValidate_reads_version_and_dirs r
    (configData1 configData2 : list Byte.byte) config1 config2 :
  yaml_UnmarshalStrict configData1 RepoConfig.zero = (config1, None) →
  yaml_UnmarshalStrict configData2 RepoConfig.zero = (config2, None) →
  RepoConfig.Version config1 = RepoConfig.Version config2 →
  map ProjectConfig.Dir (RepoConfig.Projects config1)
  = map ProjectConfig.Dir (RepoConfig.Projects config2) →
  (ParseAndValidate r configData1).2 = (ParseAndValidate r configData2).2.
Proof.
  intros Hdec1 Hdec2 Hver Hdirs. unfold ParseAndValidate.
  rewrite Hdec1, Hdec2, Hver.
  destruct (negb (RepoConfig.Version config2 =? 2)%Z); [done|].
  assert (List.length (RepoConfig.Projects config1)
          = List.length (RepoConfig.Projects config2)) as Hlen.
  { by rewrite <- (length_map ProjectConfig.Dir), Hdirs, length_map. }
  rewrite Hlen.
  destruct (List.length (RepoConfig.Projects config2) =? 0)%nat; [done|].
  by apply validateProjects_dirs.
Qed.

(** The message for a project without directory tells the index:
    different indices give different messages. *)
Theorem invalidDirMsg_tells_index (i j : nat) :
  i ≠ j → invalidDirMsg i ≠ invalidDirMsg j.
Proof.
  intros Hne Heq. apply Hne. unfold invalidDirMsg in Heq.
  apply (inj (String.append _)) in Heq.
  apply string_app_inj_r in Heq. by apply (inj pretty) in Heq.
Qed.

Lemma ParseAndValidate_accepted r (configData : list Byte.byte) config :
  ParseAndValidate r configData = (config, None) →
  yaml_UnmarshalStrict configData RepoConfig.zero = (config, None) ∧
  wellFormed config.
Proof.
  unfold ParseAndValidate, wellFormed.
  destruct (yaml_UnmarshalStrict configData RepoConfig.zero) as [c [err|]];
    [done|].
  destruct (RepoConfig.Version c =? 2)%Z eqn:Hver; cbn [negb]; [|done].
  apply Z.eqb_eq in Hver.
  destruct (RepoConfig.Projects c) as [|q rest] eqn:Hps; cbn [length Nat.eqb];
    [done|].
  intros Hval.
  pose proof (validateProjects_value c 0 (q :: rest)) as Hfst.
  pose proof (proj1 (validateProjects_accepts c 0 (q :: rest))) as Hsnd.
  rewrite Hval in Hfst, Hsnd. cbn [fst snd] in Hfst, Hsnd. subst c.
  rewrite Hps. by split_and!; [| | |apply Hsnd].
Qed.

Lemma ParseAndValidate_accepts r (configData : list Byte.byte) config :
  yaml_UnmarshalStrict configData RepoConfig.zero = (config, None) →
  wellFormed config →
  ParseAndValidate r configData = (config, None).
Proof.
  intros Hdec (Hver & Hne & Hall). unfold ParseAndValidate.
  rewrite Hdec, Hver. cbn [Z.eqb Pos.eqb negb].
  destruct (RepoConfig.Projects config) as [|q rest] eqn:Hps; [done|].
  cbn [length Nat.eqb]. by apply validateProjects_passes.
Qed.

(** *** ReadConfig, beyond the absent file *)

(** A file that exists and cannot be read is an error, not an absence:
    [ReadConfig] returns no configuration and the read error wrapped as
    "unable to read atlantis.yaml file", and [BuildStage] and the two
    stage builders hand that error on, with no step, no stage and no
    log line. *)
Theorem ReadConfig_unreadable_file fs r log repoDir workspace relProjectPath
    extraCommentArgs username (data : list Byte.byte) err :
  fs (filepath_Join repoDir AtlantisYAMLFilename) = (data, Some err) →
  os_IsNotExist err = false →
  let wrapped := withMessage err "unable to read atlantis.yaml file" in
  Error wrapped = "unable to read atlantis.yaml file: " +:+ Error err ∧
  ReadConfig fs r repoDir = (None, Some wrapped) ∧
  (∀ stageName defaults,
     BuildStage fs r stageName log repoDir workspace relProjectPath
       extraCommentArgs username defaults
     = ([], ([], Some wrapped))) ∧
  BuildPlanStage fs r log repoDir workspace relProjectPath
    extraCommentArgs username
  = ([], (None, Some wrapped)) ∧
  BuildApplyStage fs r log repoDir workspace relProjectPath
    extraCommentArgs username
  = ([], (None, Some wrapped)).
Proof.
  intros Hfs Hne wrapped.
  assert (ReadConfig fs r repoDir = (None, Some wrapped)) as Hread.
  { unfold ReadConfig. by rewrite Hfs, Hne. }
  assert (∀ stageName defaults,
            BuildStage fs r stageName log repoDir workspace relProjectPath
              extraCommentArgs username defaults
            = ([], ([], Some wrapped))) as Hbuild.
  { intros stageName defaults. unfold BuildStage. by rewrite Hread. }
  split_and!; [done|done|done| |].
  - unfold BuildPlanStage. by rewrite Hbuild.
  - unfold BuildApplyStage. by rewrite Hbuild.
Qed.

(** A file that is read and refused by [ParseAndValidate] gives no
    configuration and the refusal wrapped as "parsing atlantis.yaml";
    [BuildStage] and the two stage builders hand that error on and never
    fall back to the defaults. *)
Theorem ReadConfig_refused_file fs r log repoDir workspace relProjectPath
    extraCommentArgs username (data : list Byte.byte) config err :
  fs (filepath_Join repoDir AtlantisYAMLFilename) = (data, None) →
  ParseAndValidate r data = (config, Some err) →
  let wrapped := withMessage err "parsing atlantis.yaml" in
  Error wrapped = "parsing atlantis.yaml: " +:+ Error err ∧
  ReadConfig fs r repoDir = (None, Some wrapped) ∧
  (∀ stageName defaults,
     BuildStage fs r stageName log repoDir workspace relProjectPath
       extraCommentArgs username defaults
     = ([], ([], Some wrapped))) ∧
  BuildPlanStage fs r log repoDir workspace relProjectPath
    extraCommentArgs username
  = ([], (None, Some wrapped)) ∧
  BuildApplyStage fs r log repoDir workspace relProjectPath
    extraCommentArgs username
  = ([], (None, Some wrapped)).
Proof.
  intros Hfs Hparse wrapped.
  assert (ReadConfig fs r repoDir = (None, Some wrapped)) as Hread.
  { unfold ReadConfig. by rewrite Hfs, Hparse. }
  assert (∀ stageName defaults,
            BuildStage fs r stageName log repoDir workspace relProjectPath
              extraCommentArgs username defaults
            = ([], ([], Some wrapped))) as Hbuild.
  { intros stageName defaults. unfold BuildStage. by rewrite Hread. }
  split_and!; [done|done|done| |].
  - unfold BuildPlanStage. by rewrite Hbuild.
  - unfold BuildApplyStage. by rewrite Hbuild.
Qed.

(** [ReadConfig] returns a configuration exactly when the checkout's
    [atlantis.yaml] is read and decodes without error to that
    configuration, and it has version 2, at least one project and a
    directory in every project; and a configuration never comes with an
    error. *)
Theorem ReadConfig_returns_iff fs r repoDir config :
  ((ReadConfig fs r repoDir).1 = Some config
   ↔ ∃ data,
       fs (filepath_Join repoDir AtlantisYAMLFilename) = (data, None) ∧
       yaml_UnmarshalStrict data RepoConfig.zero = (config, None) ∧
       wellFormed config) ∧
  ((ReadConfig fs r repoDir).1 = Some config →
   (ReadConfig fs r repoDir).2 = None).
Proof.
  unfold ReadConfig.
  destruct (fs (filepath_Join repoDir AtlantisYAMLFilename)) as [data [err|]].
  { split.
    - split; [by destruct (os_IsNotExist err)|]. by intros (? & [=] & _).
    - by destruct (os_IsNotExist err). }
  destruct (ParseAndValidate r data) as [config' [err|]] eqn:Hparse.
  - split; [|done]. split; [done|]. cbn [fst].
    intros (data' & [= <-] & Hdec & Hwf).
    rewrite (ParseAndValidate_accepts r data config Hdec Hwf) in Hparse.
    discriminate Hparse.
  - cbn [fst snd]. split; [|done]. split.
    + intros [= ->].
      destruct (ParseAndValidate_accepted r data config Hparse) as [Hdec Hwf].
      by exists data.
    + intros (data' & [= <-] & Hdec & Hwf).
      rewrite (ParseAndValidate_accepts r data config Hdec Hwf) in Hparse.
      by injection Hparse as ->.
Qed.

(** *** BuildStage, all outcomes *)

(** What the body for a matching entry can return. *)
Lemma buildProject_outcomes stageName r log repoDir workspace relProjectPath
    extraCommentArgs username defaults config p :
  let result :=
    buildProject stageName r log repoDir workspace relProjectPath
      extraCommentArgs username defaults config p in
  (∃ e, result = ([], ([], Some e))) ∨
  result = ([noWorkflowLine], (defaults, None)) ∨
  ∃ stepsConfig,
    result
    = ([], (appendSteps
              (buildMeta r log repoDir workspace relProjectPath
                 extraCommentArgs username) stepsConfig [], None)).
Proof.
  cbn zeta. unfold buildProject.
  destruct (ProjectConfig.Workflow p =? ""); [by right; left|].
  destruct (RepoConfig.Workflows config !! ProjectConfig.Workflow p).
  - right; right. by eexists.
  - left. by eexists.
Qed.

Lemma rangeProjects_outcomes stageName r log repoDir workspace relProjectPath
    extraCommentArgs username defaults config projects :
  let result :=
    rangeProjects stageName r log repoDir workspace relProjectPath
      extraCommentArgs username defaults config projects in
  (∃ e, result = ([], ([], Some e))) ∨
  result = ([noWorkflowLine], (defaults, None)) ∨
  ∃ stepsConfig,
    result
    = ([], (appendSteps
              (buildMeta r log repoDir workspace relProjectPath
                 extraCommentArgs username) stepsConfig [], None)).
Proof.
  cbn zeta. induction projects as [|q rest IH]; cbn [rangeProjects].
  - left. by eexists.
  - destruct ((ProjectConfig.Dir q =? relProjectPath)
              && (ProjectConfig.Workspace q =? workspace)); [|exact IH].
    apply buildProject_outcomes.
Qed.

Lemma BuildStage_outcomes_aux fs r stageName log repoDir workspace
    relProjectPath extraCommentArgs username defaults :
  let result :=
    BuildStage fs r stageName log repoDir workspace relProjectPath
      extraCommentArgs username defaults in
  (∃ e, result = ([], ([], Some e))) ∨
  result = ([noConfigLine], (defaults, None)) ∨
  result = ([noWorkflowLine], (defaults, None)) ∨
  ∃ stepsConfig,
    result
    = ([], (appendSteps
              (buildMeta r log repoDir workspace relProjectPath
                 extraCommentArgs username) stepsConfig [], None)).
Proof.
  cbn zeta. unfold BuildStage.
  destruct (ReadConfig fs r repoDir) as [[config|] [err|]].
  - left. by eexists.
  - destruct (rangeProjects_outcomes stageName r log repoDir workspace
                relProjectPath extraCommentArgs username defaults config
                (RepoConfig.Projects config)) as [He|[Hd|Hs]]; auto.
  - left. by eexists.
  - by right; left.
Qed.

(** Whenever [BuildStage] returns an error it returns no step and has
    logged nothing. *)
Theorem BuildStage_error_without_steps fs r stageName log repoDir workspace
    relProjectPath extraCommentArgs username defaults e :
  (BuildStage fs r stageName log repoDir workspace relProjectPath
     extraCommentArgs username defaults).2.2 = Some e →
  BuildStage fs r stageName log repoDir workspace relProjectPath
    extraCommentArgs username defaults
  = ([], ([], Some e)).
Proof.
  destruct (BuildStage_outcomes_aux fs r stageName log repoDir workspace
              relProjectPath extraCommentArgs username defaults)
    as [[e' ->]|[->|[->|[stepsConfig ->]]]]; cbn [fst snd]; try done.
  by intros [= ->].
Qed.

(** [BuildStage] logs only on its way to the defaults: a call that
    logged anything logged one line, that no file or that no workflow
    is set, and returned the defaults it was given and no error. *)
Theorem BuildStage_logs_only_for_defaults fs r stageName log repoDir workspace
    relProjectPath extraCommentArgs username defaults :
  (BuildStage fs r stageName log repoDir workspace relProjectPath
     extraCommentArgs username defaults).1 ≠ [] →
  BuildStage fs r stageName log repoDir workspace relProjectPath
    extraCommentArgs username defaults
  = ([noConfigLine], (defaults, None)) ∨
  BuildStage fs r stageName log repoDir workspace relProjectPath
    extraCommentArgs username defaults
  = ([noWorkflowLine], (defaults, None)).
Proof.
  destruct (BuildStage_outcomes_aux fs r stageName log repoDir workspace
              relProjectPath extraCommentArgs username defaults)
    as [[e' ->]|[->|[->|[stepsConfig ->]]]]; cbn [fst snd]; auto; done.
Qed.

(** Each stage builder returns an error and no stage, or a stage and
    no error; and in a stage it returns, whether built from the defaults
    or from a workflow, every step carries the metadata made from the
    call's arguments and the reader. *)
Theorem stage_builders_share_meta fs r log repoDir workspace relProjectPath
    extraCommentArgs username :
  let meta :=
    buildMeta r log repoDir workspace relProjectPath extraCommentArgs username in
  ((∃ e,
      (BuildPlanStage fs r log repoDir workspace relProjectPath
         extraCommentArgs username).2 = (None, Some e)) ∨
   (∃ steps,
      (BuildPlanStage fs r log repoDir workspace relProjectPath
         extraCommentArgs username).2 = (Some (mkPlanStage steps), None) ∧
      ∀ s m, s ∈ steps → stepMeta s = Some m → m = meta)) ∧
  ((∃ e,
      (BuildApplyStage fs r log repoDir workspace relProjectPath
         extraCommentArgs username).2 = (None, Some e)) ∨
   (∃ steps,
      (BuildApplyStage fs r log repoDir workspace relProjectPath
         extraCommentArgs username).2 = (Some (mkApplyStage steps), None) ∧
      ∀ s m, s ∈ steps → stepMeta s = Some m → m = meta)).
Proof.
  intros meta. unfold BuildPlanStage, BuildApplyStage. split.
  - destruct (BuildStage_outcomes_aux fs r PlanStageName log repoDir workspace
                relProjectPath extraCommentArgs username
                (defaultPlanSteps r log repoDir workspace relProjectPath
                   extraCommentArgs username))
      as [[e' ->]|[->|[->|[stepsConfig ->]]]]; cbn [snd].
    + left. by eexists.
    + right. eexists. split; [done|]. unfold defaultPlanSteps.
      intros s m Hs Hm. apply list_elem_of_In in Hs. cbn in Hs.
      destruct Hs as [<-|[<-|[]]]; by injection Hm as <-.
    + right. eexists. split; [done|]. unfold defaultPlanSteps.
      intros s m Hs Hm. apply list_elem_of_In in Hs. cbn in Hs.
      destruct Hs as [<-|[<-|[]]]; by injection Hm as <-.
    + right. eexists. split; [done|]. intros s m. apply appendSteps_meta.
  - destruct (BuildStage_outcomes_aux fs r ApplyStageName log repoDir workspace
                relProjectPath extraCommentArgs username
                (defaultApplySteps r log repoDir workspace relProjectPath
                   extraCommentArgs username))
      as [[e' ->]|[->|[->|[stepsConfig ->]]]]; cbn [snd].
    + left. by eexists.
    + right. eexists. split; [done|]. unfold defaultApplySteps.
      intros s m Hs Hm. apply list_elem_of_In in Hs. cbn in Hs.
      destruct Hs as [<-|[]]; by injection Hm as <-.
    + right. eexists. split; [done|]. unfold defaultApplySteps.
      intros s m Hs Hm. apply list_elem_of_In in Hs. cbn in Hs.
      destruct Hs as [<-|[]]; by injection Hm as <-.
    + right. eexists. split; [done|]. intros s m. apply appendSteps_meta.
Qed.

Lemma rangeProjects_error_any_stage stageName1 stageName2 r log repoDir
    workspace relProjectPath extraCommentArgs username defaults1 defaults2
    config projects :
  (rangeProjects stageName1 r log repoDir workspace relProjectPath
     extraCommentArgs username defaults1 config projects).2.2
  = (rangeProjects stageName2 r log repoDir workspace relProjectPath
       extraCommentArgs username defaults2 config projects).2.2.
Proof.
  induction projects as [|q rest IH]; cbn [rangeProjects]; [done|].
  destruct ((ProjectConfig.Dir q =? relProjectPath)
            && (ProjectConfig.Workspace q =? workspace)); [|exact IH].
  unfold buildProject.
  destruct (ProjectConfig.Workflow q =? ""); [done|].
  by destruct (RepoConfig.Workflows config !! ProjectConfig.Workflow q).
Qed.

Lemma BuildStage_error_any_stage fs r stageName1 stageName2 log repoDir
    workspace relProjectPath extraCommentArgs username defaults1 defaults2 :
  (BuildStage fs r stageName1 log repoDir workspace relProjectPath
     extraCommentArgs username defaults1).2.2
  = (BuildStage fs r stageName2 log repoDir workspace relProjectPath
       extraCommentArgs username defaults2).2.2.
Proof.
  unfold BuildStage.
  destruct (ReadConfig fs r repoDir) as [[config|] [err|]]; try done.
  apply rangeProjects_error_any_stage.
Qed.

(** Whether a call fails, and with which error, does not depend on the
    stage asked for nor on the defaults: [BuildStage] returns the same
    error, or none, for every stage name, and [BuildPlanStage] and
    [BuildApplyStage] fail together with the same error. *)
Theorem errors_same_for_every_stage fs r log repoDir workspace relProjectPath
    extraCommentArgs username :
  (∀ stageName1 stageName2 defaults1 defaults2,
     (BuildStage fs r stageName1 log repoDir workspace relProjectPath
        extraCommentArgs username defaults1).2.2
     = (BuildStage fs r stageName2 log repoDir workspace relProjectPath
          extraCommentArgs username defaults2).2.2) ∧
  (BuildPlanStage fs r log repoDir workspace relProjectPath
     extraCommentArgs username).2.2
  = (BuildApplyStage fs r log repoDir workspace relProjectPath
       extraCommentArgs username).2.2.
Proof.
  split.
  - intros. apply BuildStage_error_any_stage.
  - unfold BuildPlanStage, BuildApplyStage.
    pose proof (BuildStage_error_any_stage fs r PlanStageName ApplyStageName log
                  repoDir workspace relProjectPath extraCommentArgs username
                  (defaultPlanSteps r log repoDir workspace relProjectPath
                     extraCommentArgs username)
                  (defaultApplySteps r log repoDir workspace relProjectPath
                     extraCommentArgs username)) as Herr.
    destruct (BuildStage fs r PlanStageName _ _ _ _ _ _ _)
      as [lines1 [steps1 err1]].
    destruct (BuildStage fs r ApplyStageName _ _ _ _ _ _ _)
      as [lines2 [steps2 err2]].
    cbn [snd] in Herr. subst err2. by destruct err1.
Qed.

(** *** The steps of a workflow *)

Lemma switchStepType_nil_iff meta (sc : StepConfig.t) :
  switchStepType meta sc = nilStep ↔ ¬ recognized (StepConfig.StepType sc).
Proof.
  split; [|apply switchStepType_unrecognized].
  unfold switchStepType. intros Hnil [Hrec|[Hrec|Hrec]];
    rewrite Hrec in Hnil; discriminate Hnil.
Qed.

(** When the first entry declared for the requested pair names a
    workflow of the map, the list returned has one element for each
    entry of the stage served, in the declared order, and the element
    is [nil] exactly when the entry's type is none of init, plan and
    apply. *)
Theorem BuildStage_one_element_per_entry fs r stageName log repoDir workspace
    relProjectPath extraCommentArgs username defaults config pre p post workflow :
  ReadConfig fs r repoDir = (Some config, None) →
  RepoConfig.Projects config = (pre ++ p :: post)%list →
  Forall (λ q, ¬ describes relProjectPath workspace q) pre →
  describes relProjectPath workspace p →
  ProjectConfig.Workflow p ≠ "" →
  RepoConfig.Workflows config !! ProjectConfig.Workflow p = Some workflow →
  let stepsConfig :=
    if decide (stageName = "plan")
    then StageConfig.Steps (WorkflowConfig.Plan workflow)
    else StageConfig.Steps (WorkflowConfig.Apply workflow) in
  ∃ steps,
    BuildStage fs r stageName log repoDir workspace relProjectPath
      extraCommentArgs username defaults
    = ([], (steps, None)) ∧
    List.length steps = List.length stepsConfig ∧
    ∀ (i : nat) (sc : StepConfig.t),
      stepsConfig !! i = Some sc →
      (steps !! i = Some nilStep ↔ ¬ recognized (StepConfig.StepType sc)).
Proof.
  intros Hread Hps Hpre Hp Hname Hlookup stepsConfig.
  pose proof (BuildStage_workflow fs r stageName log repoDir workspace
                relProjectPath extraCommentArgs username defaults config pre p
                post workflow Hread Hps Hpre Hp Hname Hlookup) as Hbuild.
  assert ((if stageName =? PlanStageName
           then StageConfig.Steps (WorkflowConfig.Plan workflow)
           else StageConfig.Steps (WorkflowConfig.Apply workflow))
          = stepsConfig) as Hsel.
  { subst stepsConfig. unfold PlanStageName.
    destruct (decide (stageName = "plan")) as [->|Hne]; [done|].
    apply String.eqb_neq in Hne. by rewrite Hne. }
  rewrite Hsel in Hbuild.
  eexists. split_and!; [exact Hbuild|apply appendSteps_length|].
  intros i sc Hi. rewrite appendSteps_map. cbn [app].
  rewrite list_lookup_fmap, Hi. cbn.
  rewrite <- (switchStepType_nil_iff
                (buildMeta r log repoDir workspace relProjectPath
                   extraCommentArgs username) sc).
  split; [by intros [= ->]|by intros ->].
Qed.

Lemma rangeProjects_plan_only r log repoDir workspace relProjectPath
    extraCommentArgs username defaults config config' projects :
  (∀ name : string,
     WorkflowConfig.Plan <$> (RepoConfig.Workflows config !! name)
     = WorkflowConfig.Plan <$> (RepoConfig.Workflows config' !! name)) →
  rangeProjects PlanStageName r log repoDir workspace relProjectPath
    extraCommentArgs username defaults config projects
  = rangeProjects PlanStageName r log repoDir workspace relProjectPath
      extraCommentArgs username defaults config' projects.
Proof.
  intros Hplan. induction projects as [|q rest IH]; cbn [rangeProjects]; [done|].
  destruct ((ProjectConfig.Dir q =? relProjectPath)
            && (ProjectConfig.Workspace q =? workspace)); [|exact IH].
  unfold buildProject.
  destruct (ProjectConfig.Workflow q =? ""); [done|].
  specialize (Hplan (ProjectConfig.Workflow q)).
  destruct (RepoConfig.Workflows config !! ProjectConfig.Workflow q) as [w|],
    (RepoConfig.Workflows config' !! ProjectConfig.Workflow q) as [w'|];
    cbn in Hplan; try done.
  injection Hplan as Hplan. cbn. by rewrite Hplan.
Qed.

Lemma rangeProjects_apply_only stageName r log repoDir workspace relProjectPath
    extraCommentArgs username defaults config config' projects :
  stageName ≠ "plan" →
  (∀ name : string,
     WorkflowConfig.Apply <$> (RepoConfig.Workflows config !! name)
     = WorkflowConfig.Apply <$> (RepoConfig.Workflows config' !! name)) →
  rangeProjects stageName r log repoDir workspace relProjectPath
    extraCommentArgs username defaults config projects
  = rangeProjects stageName r log repoDir workspace relProjectPath
      extraCommentArgs username defaults config' projects.
Proof.
  intros Hstage Happly. apply String.eqb_neq in Hstage.
  induction projects as [|q rest IH]; cbn [rangeProjects]; [done|].
  destruct ((ProjectConfig.Dir q =? relProjectPath)
            && (ProjectConfig.Workspace q =? workspace)); [|exact IH].
  unfold buildProject, PlanStageName. rewrite Hstage.
  destruct (ProjectConfig.Workflow q =? ""); [done|].
  specialize (Happly (ProjectConfig.Workflow q)).
  destruct (RepoConfig.Workflows config !! ProjectConfig.Workflow q) as [w|],
    (RepoConfig.Workflows config' !! ProjectConfig.Workflow q) as [w'|];
    cbn in Happly; try done.
  injection Happly as Happly. by rewrite Happly.
Qed.

(** A stage is built from its own half of the workflows: for two
    configurations with the same projects, the plan stage is the same
    when every workflow has the same plan steps in both, whatever the
    apply steps are, and the stage of any other name is the same when
    every workflow has the same apply steps in both. *)
Theorem stage_reads_its_own_steps fs fs' r log repoDir workspace
    relProjectPath extraCommentArgs username defaults config config' :
  ReadConfig fs r repoDir = (Some config, None) →
  ReadConfig fs' r repoDir = (Some config', None) →
  RepoConfig.Projects config = RepoConfig.Projects config' →
  ((∀ name : string,
      WorkflowConfig.Plan <$> (RepoConfig.Workflows config !! name)
      = WorkflowConfig.Plan <$> (RepoConfig.Workflows config' !! name)) →
   BuildStage fs r "plan" log repoDir workspace relProjectPath
     extraCommentArgs username defaults
   = BuildStage fs' r "plan" log repoDir workspace relProjectPath
       extraCommentArgs username defaults) ∧
  (∀ stageName,
     stageName ≠ "plan" →
     (∀ name : string,
        WorkflowConfig.Apply <$> (RepoConfig.Workflows config !! name)
        = WorkflowConfig.Apply <$> (RepoConfig.Workflows config' !! name)) →
     BuildStage fs r stageName log repoDir workspace relProjectPath
       extraCommentArgs username defaults
     = BuildStage fs' r stageName log repoDir workspace relProjectPath
         extraCommentArgs username defaults).
Proof.
  intros Hread Hread' Hps. split.
  - intros Hsteps.
    rewrite (BuildStage_config _ _ _ _ _ _ _ _ _ _ config Hread).
    rewrite (BuildStage_config _ _ _ _ _ _ _ _ _ _ config' Hread').
    rewrite <- Hps. by apply rangeProjects_plan_only.
  - intros stageName Hne Hsteps.
    rewrite (BuildStage_config _ _ _ _ _ _ _ _ _ _ config Hread).
    rewrite (BuildStage_config _ _ _ _ _ _ _ _ _ _ config' Hread').
    rewrite <- Hps. by apply rangeProjects_apply_only.
Qed.

End ReaderProperties.

(** ** The properties at sample inputs *)

(** C1: at a plan stage whose only declared step is of the reserved
    type "custom", [BuildStage] returns no error and a list of one
    element, the [nil] step the switch left untouched: the entry is not
    left out of the list. *)
Theorem C1_unrecognized_step_appended_as_nil :
  sampleBuildStage (decodesTo (sampleConfig 2 [projDefault "reserved"]))
    (fileWith []) "plan" []
  = ([], ([nilStep], None)).
Proof. vm_compute. reflexivity. Qed.

(** C2 at the sample call, in a checkout without any file. *)
Lemma C2_absent_file_witness :
  @ReadConfig string unit (decodesTo RepoConfig.zero) noFiles sampleReader "/repo"
  = (None, None) ∧
  @BuildPlanStage string string unit (decodesTo RepoConfig.zero) noFiles
    sampleReader "log" "/repo" "default" "proj" ["-var"; "x=1"] "alice"
  = ([noConfigLine],
     (Some (mkPlanStage [InitStep sampleMeta []; PlanStep sampleMeta []]), None)) ∧
  @BuildApplyStage string string unit (decodesTo RepoConfig.zero) noFiles
    sampleReader "log" "/repo" "default" "proj" ["-var"; "x=1"] "alice"
  = ([noConfigLine], (Some (mkApplyStage [ApplyStep sampleMeta []]), None)).
Proof.
  destruct (@C2_absent_file_gives_defaults string string unit
              (decodesTo RepoConfig.zero) noFiles sampleReader "log" "/repo"
              "default" "proj" ["-var"; "x=1"] "alice" []
              (PathError true "no such file or directory")
              eq_refl eq_refl) as (Hread & _ & Hplan & Happly).
  split_and!; [exact Hread|exact Hplan|exact Happly].
Defined.

(** C3 at a configuration of version 3 that is valid otherwise. *)
Lemma C3_version_witness :
  @ParseAndValidate string unit
    (decodesTo (sampleConfig 3 [projDefault "custom1"])) sampleReader []
  = (sampleConfig 3 [projDefault "custom1"], Some (errorString unknownVersionMsg)).
Proof.
  apply (@C3_version_not_2_rejected string unit
           (decodesTo (sampleConfig 3 [projDefault "custom1"])) sampleReader []
           (sampleConfig 3 [projDefault "custom1"])).
  - reflexivity.
  - vm_compute. discriminate.
Defined.

(** C4 at three entries of which the second and the third have no
    directory: the message names index 1. *)
Lemma C4_validation_witness :
  @ParseAndValidate string unit
    (decodesTo (sampleConfig 2 [otherProject; unsetProject; unsetProject]))
    sampleReader []
  = (sampleConfig 2 [otherProject; unsetProject; unsetProject],
     Some (errorString
             "project at index 1 invalid: dir key must be set and non-empty")).
Proof.
  apply (proj1 (proj2
    (@C4_projects_validated_in_order string unit
       (decodesTo (sampleConfig 2 [otherProject; unsetProject; unsetProject]))
       sampleReader []
       (sampleConfig 2 [otherProject; unsetProject; unsetProject])
       eq_refl eq_refl))
    [otherProject] unsetProject [unsetProject]).
  - reflexivity.
  - constructor; [vm_compute; discriminate|constructor].
  - reflexivity.
Defined.

(** C5 at a configuration that declares the requested pair twice, and
    at the one without the second declaration. *)
Lemma C5_first_declared_witness :
  sampleBuildStage (decodesTwo twiceDeclared onceDeclared) (fileWith []) "plan" []
  = ([], ([InitStep sampleMeta ["-x"]; PlanStep sampleMeta []], None)) ∧
  sampleBuildStage (decodesTwo twiceDeclared onceDeclared)
    (fileWith [Byte.x01]) "plan" []
  = sampleBuildStage (decodesTwo twiceDeclared onceDeclared) (fileWith []) "plan" [].
Proof.
  assert (Forall (λ q, ¬ describes "proj" "default" q) [otherProject]) as Hpre.
  { constructor; [|constructor]. intros [Hdir _]. discriminate Hdir. }
  destruct (@C5_first_declared_project_wins string string unit
              (decodesTwo twiceDeclared onceDeclared) (fileWith []) sampleReader
              "plan" "log" "/repo" "default" "proj" ["-var"; "x=1"] "alice" []
              twiceDeclared [otherProject] (projDefault "custom1")
              [projDefault ""] eq_refl eq_refl Hpre (conj eq_refl eq_refl))
    as [Hfirst Hrest].
  split.
  - etransitivity; [exact Hfirst|]. vm_compute. reflexivity.
  - apply (Hrest (fileWith [Byte.x01]) onceDeclared []); reflexivity.
Defined.

(** C6 at a configuration without the requested pair, and at one whose
    entry names the workflow "missing"; the defaults are not returned. *)
Lemma C6_lookup_errors_witness :
  sampleBuildStage (decodesTo (sampleConfig 2 [otherProject])) (fileWith [])
    "plan" [InitStep sampleMeta []]
  = ([], ([], Some (errorString
                      ("no project with dir " +:+ quoted "proj"
                       +:+ " and workspace " +:+ quoted "default"
                       +:+ " defined")))) ∧
  sampleBuildStage (decodesTo (sampleConfig 2 [projDefault "missing"]))
    (fileWith []) "plan" [InitStep sampleMeta []]
  = ([], ([], Some (errorString
                      ("no workflow with key " +:+ quoted "missing"
                       +:+ " defined")))).
Proof.
  split.
  - apply (proj1
      (@C6_lookup_errors string string unit
         (decodesTo (sampleConfig 2 [otherProject])) (fileWith []) sampleReader
         "plan" "log" "/repo" "default" "proj" ["-var"; "x=1"] "alice"
         [InitStep sampleMeta []] (sampleConfig 2 [otherProject]) eq_refl)).
    constructor; [|constructor]. intros [Hdir _]. discriminate Hdir.
  - apply (proj1 (proj2
      (@C6_lookup_errors string string unit
         (decodesTo (sampleConfig 2 [projDefault "missing"])) (fileWith [])
         sampleReader "plan" "log" "/repo" "default" "proj" ["-var"; "x=1"]
         "alice" [InitStep sampleMeta []]
         (sampleConfig 2 [projDefault "missing"]) eq_refl))
      [] (projDefault "missing") []).
    + reflexivity.
    + constructor.
    + split; reflexivity.
    + vm_compute. discriminate.
    + vm_compute. reflexivity.
Defined.

(** C7 at the workflow custom1, whose plan stage is an init step with
    the extra argument -x and a plan step. *)
Lemma C7_workflow_steps_witness :
  ∃ steps,
    sampleBuildStage (decodesTo (sampleConfig 2 [projDefault "custom1"]))
      (fileWith []) "plan" []
    = ([], (steps, None)) ∧
    length steps = 2 ∧
    steps !! 0 = Some (InitStep sampleMeta ["-x"]) ∧
    steps !! 1 = Some (PlanStep sampleMeta []) ∧
    Forall (λ s, stepMeta s = Some sampleMeta) steps.
Proof.
  destruct (@C7_workflow_steps_expanded string string unit
              (decodesTo (sampleConfig 2 [projDefault "custom1"])) (fileWith [])
              sampleReader "plan" "log" "/repo" "default" "proj"
              ["-var"; "x=1"] "alice" []
              (sampleConfig 2 [projDefault "custom1"])
              [] (projDefault "custom1") [] customWorkflow)
    as (steps & Hbuild & Hplan & _ & _).
  - reflexivity.
  - reflexivity.
  - constructor.
  - split; reflexivity.
  - vm_compute. discriminate.
  - vm_compute. reflexivity.
  - destruct (Hplan eq_refl) as [[Hlen Hexp] Hmeta].
    exists steps. split_and!.
    + exact Hbuild.
    + exact Hlen.
    + exact (proj1 (Hexp 0 _ eq_refl) eq_refl).
    + exact (proj1 (proj2 (Hexp 1 _ eq_refl)) eq_refl).
    + apply Hmeta. constructor; [left; reflexivity|].
      constructor; [right; left; reflexivity|constructor].
Defined.

(** C8 at a configuration of one entry, without workflow, and an empty
    workflows map. *)
Lemma C8_empty_workflow_witness :
  @BuildPlanStage string string unit
    (decodesTo (RepoConfig.mk 2 [projDefault ""] ∅)) (fileWith [])
    sampleReader "log" "/repo" "default" "proj" ["-var"; "x=1"] "alice"
  = ([noWorkflowLine],
     (Some (mkPlanStage [InitStep sampleMeta []; PlanStep sampleMeta []]), None)).
Proof.
  apply (proj1 (proj2
    (@C8_empty_workflow_gives_defaults string string unit
       (decodesTo (RepoConfig.mk 2 [projDefault ""] ∅)) (fileWith [])
       sampleReader "log" "/repo" "default" "proj" ["-var"; "x=1"] "alice"
       (RepoConfig.mk 2 [projDefault ""] ∅) [] (projDefault "") []
       eq_refl eq_refl (Forall_nil_2 _) (conj eq_refl eq_refl) eq_refl))).
Defined.

(** C10 at the stage name destroy. *)
Lemma C10_other_stage_witness :
  ∃ steps,
    sampleBuildStage (decodesTo onceDeclared) (fileWith []) "destroy" []
    = ([], (steps, None)) ∧
    sampleBuildStage (decodesTo onceDeclared) (fileWith []) "apply" []
    = ([], (steps, None)) ∧
    steps !! 0 = Some (ApplyStep sampleMeta ["-y"]).
Proof.
  assert (Forall (λ q, ¬ describes "proj" "default" q) [otherProject]) as Hpre.
  { constructor; [|constructor]. intros [Hdir _]. discriminate Hdir. }
  destruct (@C10_other_stage_names_select_apply string string unit
              (decodesTo onceDeclared) (fileWith []) sampleReader "destroy"
              "log" "/repo" "default" "proj" ["-var"; "x=1"] "alice" []
              onceDeclared [otherProject] (projDefault "custom1") []
              customWorkflow)
    as (steps & Hbuild & [_ Hexp] & Happly).
  - reflexivity.
  - reflexivity.
  - exact Hpre.
  - split; reflexivity.
  - vm_compute. discriminate.
  - vm_compute. reflexivity.
  - vm_compute. discriminate.
  - exists steps. split_and!; [exact Hbuild|exact Happly|].
    exact (proj2 (proj2 (Hexp 0 _ eq_refl)) eq_refl).
Defined.

(** ** Further properties at sample inputs *)

(** A decoder message with the type name, and one without. *)
Lemma ParseAndValidate_decode_error_witness :
  @ParseAndValidate string unit
    (failingDecoder "cannot unmarshal !!seq into repoconfig.RepoConfig")
    sampleReader []
  = (RepoConfig.zero, Some (errorString "cannot unmarshal !!seq")) ∧
  @ParseAndValidate string unit (failingDecoder "EOF") sampleReader []
  = (RepoConfig.zero, Some (errorString "EOF")).
Proof.
  split.
  - apply (proj1
      (@ParseAndValidate_decode_error string unit
         (failingDecoder "cannot unmarshal !!seq into repoconfig.RepoConfig")
         sampleReader [] RepoConfig.zero
         (errorString "cannot unmarshal !!seq into repoconfig.RepoConfig")
         eq_refl)).
  - apply (proj2
      (@ParseAndValidate_decode_error string unit (failingDecoder "EOF")
         sampleReader [] RepoConfig.zero (errorString "EOF") eq_refl)).
    intros (front & tail & Heq). cbn [Error] in Heq.
    destruct front as [|c1 [|c2 [|c3 [|c4 front]]]]; simpl in Heq;
      discriminate Heq.
Defined.

(** Two configurations with the same version and directory: both are
    accepted, though the second names a workflow that is not declared. *)
Lemma ParseAndValidate_reads_version_and_dirs_witness :
  (@ParseAndValidate string unit
     (decodesTwo (sampleConfig 2 [projDefault "custom1"]) stagingConfig)
     sampleReader []).2
  = (@ParseAndValidate string unit
       (decodesTwo (sampleConfig 2 [projDefault "custom1"]) stagingConfig)
       sampleReader [Byte.x01]).2.
Proof.
  apply (@ParseAndValidate_reads_version_and_dirs string unit
           (decodesTwo (sampleConfig 2 [projDefault "custom1"]) stagingConfig)
           sampleReader [] [Byte.x01]
           (sampleConfig 2 [projDefault "custom1"]) stagingConfig);
    reflexivity.
Defined.

Lemma invalidDirMsg_tells_index_witness : invalidDirMsg 1 ≠ invalidDirMsg 10.
Proof. apply (invalidDirMsg_tells_index 1 10). lia. Defined.

(** The checkout's file exists and cannot be read. *)
Lemma ReadConfig_unreadable_file_witness :
  @ReadConfig string unit (decodesTo RepoConfig.zero) unreadable sampleReader
    "/repo"
  = (None,
     Some (withMessage (PathError false "permission denied")
             "unable to read atlantis.yaml file")) ∧
  @BuildPlanStage string string unit (decodesTo RepoConfig.zero) unreadable
    sampleReader "log" "/repo" "default" "proj" ["-var"; "x=1"] "alice"
  = ([], (None,
          Some (withMessage (PathError false "permission denied")
                  "unable to read atlantis.yaml file"))).
Proof.
  destruct (@ReadConfig_unreadable_file string string unit
              (decodesTo RepoConfig.zero) unreadable sampleReader "log" "/repo"
              "default" "proj" ["-var"; "x=1"] "alice" []
              (PathError false "permission denied") eq_refl eq_refl)
    as (_ & Hread & _ & Hplan & _).
  split; [exact Hread|exact Hplan].
Defined.

(** The checkout's file decodes to a configuration of version 3. *)
Lemma ReadConfig_refused_file_witness :
  @BuildApplyStage string string unit
    (decodesTo (sampleConfig 3 [projDefault ""])) (fileWith [])
    sampleReader "log" "/repo" "default" "proj" ["-var"; "x=1"] "alice"
  = ([], (None,
          Some (withMessage (errorString unknownVersionMsg)
                  "parsing atlantis.yaml"))) ∧
  Error (withMessage (errorString unknownVersionMsg) "parsing atlantis.yaml")
  = "parsing atlantis.yaml: " +:+ unknownVersionMsg.
Proof.
  destruct (@ReadConfig_refused_file string string unit
              (decodesTo (sampleConfig 3 [projDefault ""])) (fileWith [])
              sampleReader "log" "/repo" "default" "proj" ["-var"; "x=1"]
              "alice" [] (sampleConfig 3 [projDefault ""])
              (errorString unknownVersionMsg) eq_refl eq_refl)
    as (Hmsg & _ & _ & _ & Happly).
  split; [exact Happly|exact Hmsg].
Defined.

(** The requested pair is not declared: the defaults passed in are not
    returned with the error. *)
Lemma BuildStage_error_without_steps_witness :
  sampleBuildStage (decodesTo (sampleConfig 2 [otherProject])) (fileWith [])
    "apply" [ApplyStep sampleMeta []]
  = ([], ([], Some (errorString
                      ("no project with dir " +:+ quoted "proj"
                       +:+ " and workspace " +:+ quoted "default"
                       +:+ " defined")))).
Proof.
  apply (@BuildStage_error_without_steps string string unit
           (decodesTo (sampleConfig 2 [otherProject])) (fileWith []) sampleReader
           "apply" "log" "/repo" "default" "proj" ["-var"; "x=1"] "alice"
           [ApplyStep sampleMeta []]).
  vm_compute. reflexivity.
Defined.

(** A checkout without file: one line is logged. *)
Lemma BuildStage_logs_only_for_defaults_witness :
  sampleBuildStage (decodesTo RepoConfig.zero) noFiles "plan"
    [InitStep sampleMeta []]
  = ([noConfigLine], ([InitStep sampleMeta []], None)) ∨
  sampleBuildStage (decodesTo RepoConfig.zero) noFiles "plan"
    [InitStep sampleMeta []]
  = ([noWorkflowLine], ([InitStep sampleMeta []], None)).
Proof.
  apply (@BuildStage_logs_only_for_defaults string string unit
           (decodesTo RepoConfig.zero) noFiles sampleReader "plan" "log" "/repo"
           "default" "proj" ["-var"; "x=1"] "alice" [InitStep sampleMeta []]).
  vm_compute. discriminate.
Defined.

(** A plan stage of three entries, the second of the reserved type. *)
Lemma BuildStage_one_element_per_entry_witness :
  ∃ steps,
    sampleBuildStage (decodesTo mixedConfig) (fileWith []) "plan" []
    = ([], (steps, None)) ∧
    length steps = 3 ∧
    steps !! 1 = Some nilStep.
Proof.
  destruct (@BuildStage_one_element_per_entry string string unit
              (decodesTo mixedConfig) (fileWith []) sampleReader "plan" "log"
              "/repo" "default" "proj" ["-var"; "x=1"] "alice" [] mixedConfig
              [] (projDefault "mixed") [] mixedWorkflow)
    as (steps & Hbuild & Hlen & Hnil).
  - reflexivity.
  - reflexivity.
  - constructor.
  - split; reflexivity.
  - vm_compute. discriminate.
  - vm_compute. reflexivity.
  - exists steps. split_and!; [exact Hbuild|exact Hlen|].
    apply (Hnil 1 _ eq_refl).
    intros [Hrec|[Hrec|Hrec]]; discriminate Hrec.
Defined.

(** Two configurations that differ in the apply stage of custom1 only:
    the plan stage is the same. *)
Lemma stage_reads_its_own_steps_witness :
  sampleBuildStage (decodesTwo onceDeclared onceDeclaredNoApply) (fileWith [])
    "plan" []
  = sampleBuildStage (decodesTwo onceDeclared onceDeclaredNoApply)
      (fileWith [Byte.x01]) "plan" [].
Proof.
  apply (proj1
    (@stage_reads_its_own_steps string string unit
       (decodesTwo onceDeclared onceDeclaredNoApply) (fileWith [])
       (fileWith [Byte.x01]) sampleReader "log" "/repo" "default" "proj"
       ["-var"; "x=1"] "alice" [] onceDeclared onceDeclaredNoApply
       eq_refl eq_refl eq_refl)).
  intros name.
  unfold onceDeclared, onceDeclaredNoApply, sampleConfig.
  cbn [RepoConfig.Workflows].
  destruct (decide (name = "custom1")) as [->|Hne].
  - rewrite !lookup_insert_eq. reflexivity.
  - rewrite !(lookup_insert_ne _ "custom1" name)
      by (intros Heq; apply Hne; symmetry; exact Heq).
    reflexivity.
Defined.
